(** * Deep Research Agent: the React front end ([frontend/src/App.js])
      and the crawl / job contract it talks to.

    The front end is embedded as an event-driven state machine: the ten
    [useState] cells of [App] form a record, every handler is a function
    on that record, and what a handler asks of the outside world
    ([fetch], [setTimeout], [console.error]) is returned as a list of
    effects.  The part of an [async] handler that runs after an [await]
    is a second function, taking what the awaited promise settled to. *)

From Stdlib Require Import ZArith NArith Ascii String Lia.
From Equations Require Import Equations.
From stdpp Require Import gmap strings list.

Local Open Scope Z_scope.

(** ** JavaScript strings *)

Module JS.

(** A JavaScript string is a sequence of UTF-16 code units. *)
Definition code_unit := N.
Definition js_string := list code_unit.

(** The code units of a source literal (ASCII). *)
Definition lit (s : string) : js_string :=
  N_of_ascii <$> list_ascii_of_string s.

(** ECMAScript [WhiteSpace]: TAB, VT, FF, ZWNBSP and the category Zs. *)
Definition is_white_space (c : code_unit) : bool :=
  bool_decide (c ∈ [0x0009; 0x000B; 0x000C; 0xFEFF;
                    0x0020; 0x00A0; 0x1680;
                    0x2000; 0x2001; 0x2002; 0x2003; 0x2004; 0x2005;
                    0x2006; 0x2007; 0x2008; 0x2009; 0x200A;
                    0x202F; 0x205F; 0x3000]%N).

(** ECMAScript [LineTerminator]: LF, CR, LS, PS. *)
Definition is_line_terminator (c : code_unit) : bool :=
  bool_decide (c ∈ [0x000A; 0x000D; 0x2028; 0x2029]%N).

(** What [String.prototype.trim] strips from both ends. *)
Definition is_blank (c : code_unit) : bool :=
  is_white_space c || is_line_terminator c.

Fixpoint trimStart (s : js_string) : js_string :=
  match s with
  | [] => []
  | c :: s' => if is_blank c then trimStart s' else s
  end.

Definition trimEnd (s : js_string) : js_string :=
  reverse (trimStart (reverse s)).

Definition trim (s : js_string) : js_string := trimEnd (trimStart s).

(** ToBoolean on a string: only the empty string is falsy. *)
Definition truthy (s : js_string) : bool :=
  match s with [] => false | _ :: _ => true end.

(** ToBoolean on a value that is a string, [null] or [undefined]. *)
Definition truthy_opt (o : option js_string) : bool :=
  match o with Some s => truthy s | None => false end.

(** A string is blank when it is empty or made of white space only. *)
Definition blank (s : js_string) : bool := forallb is_blank s.

End JS.

Import JS.

(** ** Payloads exchanged with the backend *)

(** The fields of a job snapshot ([GET /research/{job_id}]) that the
    front end reads.  The body is a JSON object; a field that is absent
    or [null] in it is [None], and so is a [status] that is not a
    string. *)
Module Job.

Record progress_snapshot := {
  stage : js_string;
  message : js_string;
  percent : Z
}.

Record page := {
  page_url : js_string;
  page_title : option js_string;
  page_depth : Z
}.

Record page_summary := {
  summary_title : js_string;
  summary_url : js_string;
  summary : js_string
}.

Record t := {
  status : option js_string;
  progress : option progress_snapshot;
  pages_scraped : option (list page);
  summaries : option (list page_summary);
  report : option js_string;
  error : option js_string
}.

End Job.

(** One entry of the [GET /models] mapping. *)
Record model_info := {
  name : js_string;
  description : js_string;
  cost_tier : js_string;
  use_case : js_string;
  context_window : Z
}.

(** The JSON body of [POST /research]. *)
Record research_request := {
  website_url : js_string;
  req_questions : list js_string;
  model : js_string;
  max_pages : Z;
  max_depth : Z
}.

(** ** Effects a handler asks for *)

Inductive http_method := GET | POST.

Inductive effect :=
| Fetch (method : http_method) (url : js_string) (body : option research_request)
| SetTimeout (delay_ms : Z) (jobId : js_string)
    (* setTimeout(() => pollJobStatus(jobId), delay_ms) *)
| ConsoleError (text : js_string).

(** ** [API_BASE] (App.js line 4)

    [process.env.REACT_APP_API_URL || 'http://localhost:8001']: the
    environment variable is [None] when unset, and [||] also falls
    through on the empty string. *)
Definition API_BASE (REACT_APP_API_URL : option js_string) : js_string :=
  match REACT_APP_API_URL with
  | Some u => if truthy u then u else lit "http://localhost:8001"
  | None => lit "http://localhost:8001"
  end.

(** The default the README's environment-variable table documents. *)
Definition README_default_API_URL : js_string := lit "http://localhost:8000".

(** ** [ProgressBar] (App.js lines 38-64) *)

Inductive emoji :=
| Rocket | Spider | Memo | CardDividers | BarChart | CheckMark | CrossMark
| Hourglass.

(** The own properties of the [stageEmoji] object literal, in source order. *)
Definition stageEmoji : list (js_string * emoji) :=
  [ (lit "initializing", Rocket);
    (lit "scraping", Spider);
    (lit "summarizing", Memo);
    (lit "categorizing", CardDividers);
    (lit "reporting", BarChart);
    (lit "complete", CheckMark);
    (lit "error", CrossMark) ].

(** The own property [key] of an object literal, if it has one. *)
Fixpoint own_property {A} (o : list (js_string * A)) (key : js_string) : option A :=
  match o with
  | [] => None
  | (k, v) :: o' => if decide (k = key) then Some v else own_property o' key
  end.

(** The names of the members that every object inherits from
    [Object.prototype] (ECMAScript, properties of the Object prototype
    object and its Annex B additions). *)
Definition Object_prototype_keys : list js_string :=
  lit <$> ["constructor"; "hasOwnProperty"; "isPrototypeOf";
           "propertyIsEnumerable"; "toLocaleString"; "toString"; "valueOf";
           "__proto__"; "__defineGetter__"; "__defineSetter__";
           "__lookupGetter__"; "__lookupSetter__"].

(** What a property access on an object literal evaluates to: the value
    of an own property, or the member of that name inherited from
    [Object.prototype] (a function, or for [__proto__] the prototype
    object: truthy in either case). *)
Inductive js_member (A : Type) :=
| Val (value : A)
| Inherited (key : js_string).
Arguments Val {A} value.
Arguments Inherited {A} key.

(** [o[key]] on an object literal [o]: an own property first, then the
    prototype; [None] is [undefined]. *)
Definition property_get {A} (o : list (js_string * A)) (key : js_string)
    : option (js_member A) :=
  match own_property o key with
  | Some v => Some (Val v)
  | None =>
      if bool_decide (key ∈ Object_prototype_keys) then Some (Inherited key)
      else None
  end.

(** [stageEmoji[progress.stage] || '⏳']: every emoji of the literal is a
    non-empty string and every inherited member is truthy, so that the
    hourglass stands in for [undefined] only. *)
Definition progress_emoji (p : Job.progress_snapshot) : js_member emoji :=
  match property_get stageEmoji (Job.stage p) with
  | Some e => e
  | None => Val Hourglass
  end.

(** ** [QuestionInput] (App.js lines 67-114) *)

(** [setQuestions([...questions, ''])] *)
Definition addQuestion (questions : list js_string) : list js_string :=
  questions ++ [[]].

(** [updated = [...questions]; updated[index] = value].  The only caller
    is the [onChange] of row [index] of [questions.map], so that
    [index < length questions], where the assignment replaces the
    entry.  (Beyond the end JavaScript would grow the array; no row
    exists there, and the lemmas on [updateQuestion] below assume the
    index of a row.) *)
Definition updateQuestion (questions : list js_string) (index : nat)
    (value : js_string) : list js_string :=
  <[index := value]> questions.

(** [questions.filter((_, i) => i !== index)] *)
Fixpoint filter_index_ne {A} (l : list A) (i index : nat) : list A :=
  match l with
  | [] => []
  | x :: l' =>
      if decide (i ≠ index) then x :: filter_index_ne l' (S i) index
      else filter_index_ne l' (S i) index
  end.

Definition removeQuestion (questions : list js_string) (index : nat)
    : list js_string :=
  if (1 <? length questions)%nat then filter_index_ne questions 0 index
  else questions.

(** [disabled={questions.length === 1}] on the remove button of a row. *)
Definition remove_disabled (questions : list js_string) : bool :=
  bool_decide (length questions = 1%nat).

(** ** [App] (App.js lines 204-413) *)

(** The ten [useState] cells (lines 205-214). *)
Record state := {
  websiteUrl : js_string;
  questions : list js_string;
  selectedModel : js_string;
  models : list (js_string * model_info);
  maxPages : Z;
  maxDepth : Z;
  currentJob : option Job.t;
  isLoading : bool;
  error : option js_string;
  showSettings : bool
}.

Definition initial_state : state := {|
  websiteUrl := [];
  questions := [[]];
  selectedModel := lit "claude-sonnet-4-20250514";
  models := [];
  maxPages := 30;
  maxDepth := 2;
  currentJob := None;
  isLoading := false;
  error := None;
  showSettings := false
|}.

(** The setters returned by [useState]. *)
Definition setWebsiteUrl (v : js_string) (st : state) : state :=
  {| websiteUrl := v; questions := questions st;
     selectedModel := selectedModel st; models := models st;
     maxPages := maxPages st; maxDepth := maxDepth st;
     currentJob := currentJob st; isLoading := isLoading st;
     error := error st; showSettings := showSettings st |}.

Definition setQuestions (v : list js_string) (st : state) : state :=
  {| websiteUrl := websiteUrl st; questions := v;
     selectedModel := selectedModel st; models := models st;
     maxPages := maxPages st; maxDepth := maxDepth st;
     currentJob := currentJob st; isLoading := isLoading st;
     error := error st; showSettings := showSettings st |}.

Definition setSelectedModel (v : js_string) (st : state) : state :=
  {| websiteUrl := websiteUrl st; questions := questions st;
     selectedModel := v; models := models st;
     maxPages := maxPages st; maxDepth := maxDepth st;
     currentJob := currentJob st; isLoading := isLoading st;
     error := error st; showSettings := showSettings st |}.

Definition setModels (v : list (js_string * model_info)) (st : state) : state :=
  {| websiteUrl := websiteUrl st; questions := questions st;
     selectedModel := selectedModel st; models := v;
     maxPages := maxPages st; maxDepth := maxDepth st;
     currentJob := currentJob st; isLoading := isLoading st;
     error := error st; showSettings := showSettings st |}.

Definition setMaxPages (v : Z) (st : state) : state :=
  {| websiteUrl := websiteUrl st; questions := questions st;
     selectedModel := selectedModel st; models := models st;
     maxPages := v; maxDepth := maxDepth st;
     currentJob := currentJob st; isLoading := isLoading st;
     error := error st; showSettings := showSettings st |}.

Definition setMaxDepth (v : Z) (st : state) : state :=
  {| websiteUrl := websiteUrl st; questions := questions st;
     selectedModel := selectedModel st; models := models st;
     maxPages := maxPages st; maxDepth := v;
     currentJob := currentJob st; isLoading := isLoading st;
     error := error st; showSettings := showSettings st |}.

Definition setCurrentJob (v : option Job.t) (st : state) : state :=
  {| websiteUrl := websiteUrl st; questions := questions st;
     selectedModel := selectedModel st; models := models st;
     maxPages := maxPages st; maxDepth := maxDepth st;
     currentJob := v; isLoading := isLoading st;
     error := error st; showSettings := showSettings st |}.

Definition setIsLoading (v : bool) (st : state) : state :=
  {| websiteUrl := websiteUrl st; questions := questions st;
     selectedModel := selectedModel st; models := models st;
     maxPages := maxPages st; maxDepth := maxDepth st;
     currentJob := currentJob st; isLoading := v;
     error := error st; showSettings := showSettings st |}.

Definition setError (v : option js_string) (st : state) : state :=
  {| websiteUrl := websiteUrl st; questions := questions st;
     selectedModel := selectedModel st; models := models st;
     maxPages := maxPages st; maxDepth := maxDepth st;
     currentJob := currentJob st; isLoading := isLoading st;
     error := v; showSettings := showSettings st |}.

Definition setShowSettings (v : bool) (st : state) : state :=
  {| websiteUrl := websiteUrl st; questions := questions st;
     selectedModel := selectedModel st; models := models st;
     maxPages := maxPages st; maxDepth := maxDepth st;
     currentJob := currentJob st; isLoading := isLoading st;
     error := error st; showSettings := v |}.

(** What an awaited promise settles to. *)
Inductive settled (A : Type) :=
| Fulfilled (value : A)
| Rejected (message : js_string).
Arguments Fulfilled {A} value.
Arguments Rejected {A} message.

Section Handlers.

(** [process.env.REACT_APP_API_URL] at build time. *)
Variable REACT_APP_API_URL : option js_string.

Let api_base : js_string := API_BASE REACT_APP_API_URL.

(** *** Fetch available models (lines 217-222) *)

Definition fetchModels : effect :=
  Fetch GET (api_base ++ lit "/models") None.

Definition fetchModels_settled (r : settled (list (js_string * model_info)))
    (st : state) : state * list effect :=
  match r with
  | Fulfilled m => (setModels m st, [])
  | Rejected _ => (st, [ConsoleError (lit "Failed to fetch models:")])
  end.

(** *** Poll job status (lines 225-243) *)

(** [job.status === s] *)
Definition status_is (job : Job.t) (s : string) : bool :=
  bool_decide (Job.status job = Some (lit s)).

(** The test of line 231. *)
Definition is_terminal (job : Job.t) : bool :=
  status_is job "completed" || status_is job "failed"
  || status_is job "cancelled".

(** Up to the first [await]: the request of line 227. *)
Definition pollJobStatus (jobId : js_string) : effect :=
  Fetch GET (api_base ++ lit "/research/" ++ jobId) None.

(** After [res.json()] has settled (lines 229-242); [Rejected] stands
    for a rejection of [fetch] or of [res.json()], which the [catch]
    receives. *)
Definition pollJobStatus_settled (jobId : js_string) (r : settled Job.t)
    (st : state) : state * list effect :=
  match r with
  | Fulfilled job =>
      let st1 := setCurrentJob (Some job) st in
      if is_terminal job then
        let st2 := setIsLoading false st1 in
        if status_is job "failed" then (setError (Job.error job) st2, [])
        else (st2, [])
      else (st1, [SetTimeout 2000 jobId])
  | Rejected _ =>
      (setIsLoading false
         (setError (Some (lit "Failed to fetch job status")) st), [])
  end.

(** *** Start research (lines 246-285) *)

(** [questions.filter(q => q.trim())] *)
Definition validQuestions (qs : list js_string) : list js_string :=
  List.filter (fun q => truthy (trim q)) qs.

(** Up to the first [await] (lines 247-273). *)
Definition startResearch (st : state) : state * list effect :=
  if negb (truthy (websiteUrl st)) then
    (setError (Some (lit "Please enter a website URL")) st, [])
  else
    let valid := validQuestions (questions st) in
    if (length valid =? 0)%nat then
      (setError (Some (lit "Please enter at least one research question")) st,
       [])
    else
      (setCurrentJob None (setIsLoading true (setError None st)),
       [Fetch POST (api_base ++ lit "/research")
          (Some {| website_url := websiteUrl st;
                   req_questions := valid;
                   model := selectedModel st;
                   max_pages := maxPages st;
                   max_depth := maxDepth st |})]).

(** The response to the POST: [res.ok], and what [res.json()] settles
    to, read as [{ job_id }]. *)
Record create_response := {
  ok : bool;
  json_job_id : settled js_string
}.

(** The [catch] of lines 281-284. *)
Definition startResearch_catch (message : js_string) (st : state)
    : state * list effect :=
  (setIsLoading false (setError (Some message) st), []).

(** After [fetch] has settled (lines 275-284). *)
Definition startResearch_settled (r : settled create_response) (st : state)
    : state * list effect :=
  match r with
  | Rejected message => startResearch_catch message st
  | Fulfilled res =>
      if negb (ok res) then
        startResearch_catch (lit "Failed to start research") st
      else
        match json_job_id res with
        | Rejected message => startResearch_catch message st
        | Fulfilled job_id => (st, [pollJobStatus job_id])
        end
  end.

(** *** Reset (lines 287-292) *)

Definition resetForm (st : state) : state :=
  setQuestions [[]] (setWebsiteUrl [] (setError None (setCurrentJob None st))).

(** *** The controls of the form (lines 306-405) *)

(** The value an [<input type="range" min max>] reports: the browser
    confines the position to the interval of the two attributes. *)
Definition range_value (min max position : Z) : Z :=
  Z.max min (Z.min max position).

(** [!currentJob?.report] is false: the results view replaces the form. *)
Definition shows_results (st : state) : bool :=
  match currentJob st with
  | Some job => truthy_opt (Job.report job)
  | None => false
  end.

(** [{error && <div className="error-message">⚠️ {error}</div>}], which
    belongs to the form. *)
Definition error_banner (st : state) : option js_string :=
  if shows_results st then None
  else match error st with
       | Some e => if truthy e then Some e else None
       | None => None
       end.

(** What [ReportViewer] receives as [job] (line 403), whose
    [pages_scraped] and [summaries] its tabs list. *)
Definition viewer_job (st : state) : option Job.t :=
  if shows_results st then currentJob st else None.

(** Everything that can happen to a mounted [App]. *)
Inductive event :=
| ModelsSettled (r : settled (list (js_string * model_info)))
| UrlChanged (value : js_string)
| QuestionAdded
| QuestionChanged (index : nat) (value : js_string)
| QuestionRemoved (index : nat)
| ModelSelected (modelKey : js_string)
| SettingsToggled
| MaxPagesSlid (position : Z)
| MaxDepthSlid (position : Z)
| StartClicked
| StartSettled (r : settled create_response)
| PollSettled (jobId : js_string) (r : settled Job.t)
| TimerFired (jobId : js_string)
| ResetClicked.

Definition step (ev : event) (st : state) : state * list effect :=
  match ev with
  | ModelsSettled r => fetchModels_settled r st
  | UrlChanged v => (setWebsiteUrl v st, [])
  | QuestionAdded => (setQuestions (addQuestion (questions st)) st, [])
  | QuestionChanged i v =>
      (* rows exist for the indices of [questions] only *)
      if (i <? length (questions st))%nat
      then (setQuestions (updateQuestion (questions st) i v) st, [])
      else (st, [])
  | QuestionRemoved i => (setQuestions (removeQuestion (questions st) i) st, [])
  | ModelSelected k => (setSelectedModel k st, [])
  | SettingsToggled => (setShowSettings (negb (showSettings st)) st, [])
  | MaxPagesSlid p => (setMaxPages (range_value 10 100 p) st, [])
  | MaxDepthSlid p => (setMaxDepth (range_value 1 5 p) st, [])
  | StartClicked => startResearch st
  | StartSettled r => startResearch_settled r st
  | PollSettled jobId r => pollJobStatus_settled jobId r st
  | TimerFired jobId => (st, [pollJobStatus jobId])
  | ResetClicked => (resetForm st, [])
  end.

(** A run: the effect of mounting, then one step per event. *)
Fixpoint run_from (evs : list event) (st : state) (out : list effect)
    : state * list effect :=
  match evs with
  | [] => (st, out)
  | ev :: evs' =>
      let '(st', effs) := step ev st in run_from evs' st' (out ++ effs)
  end.

Definition run (evs : list event) : state * list effect :=
  run_from evs initial_state [fetchModels].

End Handlers.

(** ** The crawler (backend; spec section 4.3) *)

Module Crawler.

(** Modelled from the spec: CrawlTarget and CrawledPage of the data
    model (spec section 3); URLs are in normalized form. *)
Record CrawlTarget := {
  url : string;
  depth : nat
}.

Record CrawledPage := {
  page_url : string;
  title : string;
  extracted_text : string;
  page_depth : nat;
  outbound_links : list string
}.

(** Modelled from the spec: what Fetcher followed by Link Extractor
    give for a URL that could be fetched. *)
Record extracted := {
  ex_title : string;
  ex_text : string;
  ex_links : list string
}.

Section Crawl.

(** Fetcher and Link Extractor are collaborators: [fetch u] is [None]
    on a fetch failure. *)
Variable fetch : string -> option extracted.

Variables max_pages max_depth : nat.

(** Modelled from the spec: the links of a fetched page that are
    enqueued, at depth [d]: those not visited, provided [d] is within
    the depth bound; in order of appearance. *)
Definition discovered (visited : gset string) (d : nat) (links : list string)
    : list CrawlTarget :=
  if (d <=? max_depth)%nat
  then (fun l => {| url := l; depth := d |})
         <$> List.filter (fun l => bool_decide (l ∉ visited)) links
  else [].

(** Modelled from the spec: the crawler itself (a backend module) is not
    among the sources; this is the traversal of spec section 4.3.
    Repeatedly dequeue a target from the FIFO frontier; the traversal
    ends when the frontier is empty or the page budget is reached; a
    target too deep or already visited is skipped; otherwise it is
    marked visited and fetched; a fetch failure skips it; on success the
    page is appended to the result and its new links are enqueued at
    depth + 1. *)
Equations? crawl_loop (frontier : list CrawlTarget) (visited : gset string)
    (result : list CrawledPage) : list CrawledPage
    by wf (max_pages - length result, length frontier)%nat
          (Subterm.lexprod _ _ lt lt) :=
crawl_loop [] visited result := result;
crawl_loop (t :: rest) visited result
  with le_lt_dec max_pages (length result) => {
  | left _ := result;
  | right _
    with bool_decide (max_depth < depth t)%nat
         || bool_decide (url t ∈ visited) => {
    | true := crawl_loop rest visited result;
    | false with fetch (url t) => {
      | None := crawl_loop rest ({[url t]} ∪ visited) result;
      | Some ex :=
          crawl_loop
            (rest ++ discovered ({[url t]} ∪ visited) (S (depth t)) (ex_links ex))
            ({[url t]} ∪ visited)
            (result ++ [{| page_url := url t;
                           title := ex_title ex;
                           extracted_text := ex_text ex;
                           page_depth := depth t;
                           outbound_links := ex_links ex |}])
      }
    }
  }.
Proof.
  all: first [ solve [ right; simpl; lia ]
             | left; rewrite length_app; simpl; lia ].
Defined.

(** Modelled from the spec: the entry point of the crawler, whose
    frontier is seeded with the seed URL at depth 0. *)
Definition crawl (seed : string) : list CrawledPage :=
  crawl_loop [{| url := seed; depth := 0 |}] ∅ [].

(** The invariant of the traversal: the pages found so far have distinct
    URLs, all of them marked visited, are within the depth bound, and
    are no more than the page budget. *)
Definition crawl_inv (visited : gset string) (result : list CrawledPage) : Prop :=
  NoDup (page_url <$> result) /\
  Forall (fun p => page_url p ∈ visited /\ (page_depth p <= max_depth)%nat) result /\
  (length result <= max_pages)%nat.

(** What is claimed of the result. *)
Definition crawl_post (result : list CrawledPage) : Prop :=
  NoDup (page_url <$> result) /\
  Forall (fun p => (page_depth p <= max_depth)%nat) result /\
  (length result <= max_pages)%nat.

End Crawl.

End Crawler.

(** A site with a cycle: a and b link to each other, c cannot be
    fetched. *)
Definition cyclic_site (u : string) : option Crawler.extracted :=
  if decide (u = "a") then
    Some {| Crawler.ex_title := "A"; Crawler.ex_text := "";
            Crawler.ex_links := ["b"; "c"; "a"; "d"] |}
  else if decide (u = "b") then
    Some {| Crawler.ex_title := "B"; Crawler.ex_text := "";
            Crawler.ex_links := ["a"; "c"; "d"] |}
  else if decide (u = "d") then
    Some {| Crawler.ex_title := "D"; Crawler.ex_text := "";
            Crawler.ex_links := ["e"; "d"] |}
  else if decide (u = "e") then
    Some {| Crawler.ex_title := "E"; Crawler.ex_text := "";
            Crawler.ex_links := ["a"] |}
  else None.

(** ** The job state machine and the creation contract (backend; spec
       sections 4.4 and 6) *)

Module Orchestrator.

(** Modelled from the spec: the Job Orchestrator (a backend module) is
    not among the sources; these are the states of spec section 4.4. *)
Inductive status :=
| pending | crawling | summarizing | categorizing | reporting
| completed | failed | cancelled.

(** Modelled from the spec: the name of a state as it appears in a job
    snapshot. *)
Definition name (s : status) : string :=
  match s with
  | pending => "pending"
  | crawling => "crawling"
  | summarizing => "summarizing"
  | categorizing => "categorizing"
  | reporting => "reporting"
  | completed => "completed"
  | failed => "failed"
  | cancelled => "cancelled"
  end.

(** Modelled from the spec: "completed, failed, cancelled are terminal". *)
Definition terminal (s : status) : bool :=
  match s with
  | completed | failed | cancelled => true
  | _ => false
  end.

(** Modelled from the spec: the pipeline order
    pending → crawling → summarizing → categorizing → reporting → completed. *)
Definition next (s : status) : status :=
  match s with
  | pending => crawling
  | crawling => summarizing
  | summarizing => categorizing
  | categorizing => reporting
  | reporting => completed
  | s => s
  end.

(** Modelled from the spec: what moves a job: a stage that succeeds, an
    unrecoverable stage error, a cancellation request. *)
Inductive signal := StageDone | StageError | CancelRequested.

(** Modelled from the spec: one transition of spec section 4.4; [failed]
    and [cancelled] are reachable from any non-terminal state, and a
    terminal state is immutable ([cancel_job] is a no-op there). *)
Definition transition (s : status) (sig : signal) : status :=
  if terminal s then s
  else match sig with
       | StageDone => next s
       | StageError => failed
       | CancelRequested => cancelled
       end.

(** Modelled from the spec: the status after a sequence of signals. *)
Definition transitions (s : status) (sigs : list signal) : status :=
  fold_left transition sigs s.

(** Modelled from the spec: the pipeline states a progress snapshot
    advances through (spec section 4.4). *)
Definition pipeline_states : list status :=
  [pending; crawling; summarizing; categorizing; reporting; completed].

(** Modelled from the spec: the ranges [create_job] accepts (spec
    section 6): max_pages ∈ [1,100] and max_depth ∈ [0,5]. *)
Definition create_job_ranges (max_pages max_depth : Z) : Prop :=
  1 <= max_pages <= 100 /\ 0 <= max_depth <= 5.

(** Modelled from the spec: [create_job] fails with InvalidInput when
    the question list is empty (spec section 6). *)
Definition create_job_rejects_questions (qs : list js_string) : bool :=
  match qs with [] => true | _ :: _ => false end.

End Orchestrator.

(** ** A polling session

    The chain of requests that one call [pollJobStatus(jobId)] starts,
    when the backend answers the successive requests with [answers]: a
    timer that was set fires and polls again; without a timer the chain
    is over.  The effects are listed in the order they happen. *)
Fixpoint poll_session (env : option js_string) (jobId : js_string)
    (answers : list (settled Job.t)) (st : state) : state * list effect :=
  match answers with
  | [] => (st, [pollJobStatus env jobId])
  | r :: answers' =>
      let '(st1, effs) := pollJobStatus_settled jobId r st in
      match effs with
      | [SetTimeout delay next_id] =>
          let '(st2, out) := poll_session env next_id answers' st1 in
          (st2, pollJobStatus env jobId :: SetTimeout delay next_id :: out)
      | _ => (st1, pollJobStatus env jobId :: effs)
      end
  end.

Definition is_fetch (e : effect) : bool :=
  match e with Fetch _ _ _ => true | _ => false end.

(** The number of requests among the effects. *)
Definition requests (effs : list effect) : nat :=
  length (List.filter is_fetch effs).

(** ** Predicates on snapshots and states used below *)

(** The snapshot carries one of the three terminal statuses. *)
Definition terminal_status (job : Job.t) : Prop :=
  Job.status job = Some (lit "completed") \/
  Job.status job = Some (lit "failed") \/
  Job.status job = Some (lit "cancelled").

(** The intervals of the two sliders of the advanced settings. *)
Definition settings_in_slider_ranges (st : state) : Prop :=
  10 <= maxPages st <= 100 /\ 1 <= maxDepth st <= 5.

(** The same for the body of a request. *)
Definition request_in_slider_ranges (body : research_request) : Prop :=
  10 <= max_pages body <= 100 /\ 1 <= max_depth body <= 5.

(** [Orchestrator.pipeline_states] by name. *)
Definition pipeline_stage_names : list string :=
  Orchestrator.name <$> Orchestrator.pipeline_states.

(** ** [ModelCard] and the models grid (App.js lines 7-35, 337-347) *)

(** The own properties of the [costColors] object literal. *)
Definition costColors : list (js_string * js_string) :=
  [ (lit "low", lit "#10b981");
    (lit "medium", lit "#f59e0b");
    (lit "high", lit "#ef4444") ].

(** What a [ModelCard] shows, the context label apart: the class
    [selected], the name, the badge with its background colour
    ([costColors[model.cost_tier]], [None] for [undefined]) and its
    text, the description and the use case; [card_key] is what a click
    passes to [onSelect]. *)
Record model_card := {
  card_key : js_string;
  card_selected : bool;
  card_name : js_string;
  badge_color : option (js_member js_string);
  badge_text : js_string;
  card_description : js_string;
  card_use_case : js_string
}.

Definition ModelCard (model : model_info) (modelKey : js_string)
    (selected : bool) : model_card :=
  {| card_key := modelKey;
     card_selected := selected;
     card_name := name model;
     badge_color := property_get costColors (cost_tier model);
     badge_text := cost_tier model;
     card_description := description model;
     card_use_case := use_case model |}.

(** [Object.entries(models).map(([key, model]) => <ModelCard ...
    selected={selectedModel === key} />)] *)
Definition models_grid (st : state) : list model_card :=
  (fun entry : js_string * model_info =>
     ModelCard entry.2 entry.1 (bool_decide (selectedModel st = entry.1)))
    <$> models st.

(** ** What else the form shows (App.js lines 306-394) *)

(** [{currentJob && isLoading && <ProgressBar ... />}], which belongs
    to the form. *)
Definition progress_bar_shown (st : state) : bool :=
  negb (shows_results st)
  && match currentJob st with Some _ => true | None => false end
  && isLoading st.

(** ** [ReportViewer] (App.js lines 117-201) *)

Module ReportViewer.

(** [useState('report')] *)
Definition initial_tab : js_string := lit "report".

(** The three tab buttons; a click calls [setActiveTab] with the name. *)
Inductive tab_button := ReportTab | PagesTab | SummariesTab.

Definition tab_name (b : tab_button) : js_string :=
  match b with
  | ReportTab => lit "report"
  | PagesTab => lit "pages"
  | SummariesTab => lit "summaries"
  end.

Definition click_tab (b : tab_button) (activeTab : js_string) : js_string :=
  tab_name b.

(** The active tab after a sequence of clicks. *)
Definition tab_after (clicks : list tab_button) : js_string :=
  fold_left (fun activeTab b => click_tab b activeTab) clicks initial_tab.

(** [className={`tab ${activeTab === ... ? 'active' : ''}`}] *)
Definition tab_is_active (b : tab_button) (activeTab : js_string) : bool :=
  bool_decide (activeTab = tab_name b).

(** What the two action buttons do with the [report] prop. *)
Inductive action :=
| ClipboardWriteText (text : js_string)
| Download (filename mime content : js_string).

Definition copyToClipboard (report : js_string) : action :=
  ClipboardWriteText report.

Definition downloadReport (report : js_string) : action :=
  Download (lit "research-report.md") (lit "text/markdown") report.

(** [job.pages_scraped?.length || 0] *)
Definition pages_count (job : Job.t) : nat :=
  match Job.pages_scraped job with
  | Some pages => length pages
  | None => 0
  end.

(** One entry of the pages list: the link, its text
    ([page.title || page.url]) and the depth. *)
Record page_row := {
  href : js_string;
  link_text : js_string;
  depth_shown : Z
}.

Definition page_row_of (page : Job.page) : page_row :=
  {| href := Job.page_url page;
     link_text := match Job.page_title page with
                  | Some t => if truthy t then t else Job.page_url page
                  | None => Job.page_url page
                  end;
     depth_shown := Job.page_depth page |}.

(** [job.pages_scraped?.map(...)] *)
Definition pages_rows (job : Job.t) : list page_row :=
  match Job.pages_scraped job with
  | Some pages => page_row_of <$> pages
  | None => []
  end.

(** [job.summaries?.map(...)]: title, link and text of each summary. *)
Definition summaries_rows (job : Job.t) : list Job.page_summary :=
  match Job.summaries job with
  | Some l => l
  | None => []
  end.

Inductive panel :=
| ReportPanel (report : js_string)
| PagesPanel (rows : list page_row)
| SummariesPanel (rows : list Job.page_summary).

(** The children of [report-content] (lines 165-198): each of the three
    is there when [activeTab] is its name. *)
Definition content (activeTab report : js_string) (job : Job.t) : list panel :=
  (if bool_decide (activeTab = lit "report") then [ReportPanel report] else [])
  ++ (if bool_decide (activeTab = lit "pages")
      then [PagesPanel (pages_rows job)] else [])
  ++ (if bool_decide (activeTab = lit "summaries")
      then [SummariesPanel (summaries_rows job)] else []).

End ReportViewer.

(** [<ReportViewer report={currentJob.report} job={currentJob} />]
    (line 403): the [report] prop when the results are shown. *)
Definition viewer_report (st : state) : option js_string :=
  match viewer_job st with
  | Some job => Job.report job
  | None => None
  end.

(** ** Counting the effects of a run *)

Definition is_post (e : effect) : bool :=
  match e with Fetch POST _ _ => true | _ => false end.

Definition is_start_click (ev : event) : bool :=
  match ev with StartClicked => true | _ => false end.

Definition is_timer (e : effect) : bool :=
  match e with SetTimeout _ _ => true | _ => false end.

(** The URL and the shape of a request: a GET without a body or a POST
    with one, to a URL under [base]. *)
Definition request_under (base : js_string) (e : effect) : Prop :=
  match e with
  | Fetch GET url None => exists path, url = base ++ lit "/" ++ path
  | Fetch POST url (Some _) => url = base ++ lit "/research"
  | Fetch _ _ _ => False
  | _ => True
  end.

(** The answer is a snapshot of a job that is still running. *)
Definition running_answer (r : settled Job.t) : Prop :=
  exists job, r = Fulfilled job /\ ~ terminal_status job.

(** The request of the models listing, [GET base/models]. *)
Definition is_models_request (base : js_string) (e : effect) : bool :=
  match e with
  | Fetch GET url None => bool_decide (url = base ++ lit "/models")
  | _ => false
  end.

(** The panel that belongs to a tab button of [ReportViewer]. *)
Definition panel_of (b : ReportViewer.tab_button) (report : js_string)
    (job : Job.t) : ReportViewer.panel :=
  match b with
  | ReportViewer.ReportTab => ReportViewer.ReportPanel report
  | ReportViewer.PagesTab =>
      ReportViewer.PagesPanel (ReportViewer.pages_rows job)
  | ReportViewer.SummariesTab =>
      ReportViewer.SummariesPanel (ReportViewer.summaries_rows job)
  end.

(** * Properties *)

(** ** [trim] and blank strings *)

Example trim_ex1 : trim (lit "  What do they sell? ") = lit "What do they sell?".
Proof. reflexivity. Qed.

Example trim_ex2 : trim (lit "   ") = [].
Proof. reflexivity. Qed.

Lemma trimStart_nil (s : js_string) : trimStart s = [] <-> blank s = true.
Proof.
  induction s as [|c s IH]; simpl; [done|].
  destruct (is_blank c); simpl; [exact IH | split; discriminate].
Qed.

Lemma blank_app (s t : js_string) : blank (s ++ t) = blank s && blank t.
Proof. apply forallb_app. Qed.

Lemma blank_reverse (s : js_string) : blank (reverse s) = blank s.
Proof.
  induction s as [|c s IH]; [done|].
  rewrite reverse_cons, blank_app, IH. simpl.
  destruct (is_blank c), (blank s); reflexivity.
Qed.

(** What is left after [trimStart] is blank only when all of it was. *)
Lemma blank_trimStart (s : js_string) : blank (trimStart s) = blank s.
Proof.
  induction s as [|c s IH]; [done|].
  simpl. destruct (is_blank c) eqn:Hc; simpl; [exact IH | by rewrite Hc].
Qed.

Lemma trim_nil (s : js_string) : trim s = [] <-> blank s = true.
Proof.
  unfold trim, trimEnd.
  rewrite <- (blank_trimStart s), <- (blank_reverse (trimStart s)).
  rewrite <- trimStart_nil. split.
  - intros H. apply (f_equal reverse) in H.
    by rewrite reverse_involutive in H.
  - intros ->. reflexivity.
Qed.

Lemma truthy_trim (q : js_string) : truthy (trim q) = negb (blank q).
Proof.
  destruct (blank q) eqn:Hb.
  - apply trim_nil in Hb. by rewrite Hb.
  - destruct (trim q) eqn:Ht; [|done].
    apply trim_nil in Ht. congruence.
Qed.

Lemma validQuestions_nil (qs : list js_string) :
  validQuestions qs = [] <-> Forall (fun q => blank q = true) qs.
Proof.
  unfold validQuestions. induction qs as [|q qs IH]; simpl.
  - split; [constructor | done].
  - rewrite truthy_trim. destruct (blank q) eqn:Hb; simpl.
    + rewrite IH. split; [by constructor | by inversion 1].
    + split; [discriminate | inversion 1; congruence].
Qed.

Lemma validQuestions_cons (qs : list js_string) :
  validQuestions qs <> [] <-> Exists (fun q => blank q = false) qs.
Proof.
  rewrite validQuestions_nil. split.
  - intros H. apply not_Forall_Exists in H; [|intros q; apply _].
    eapply Exists_impl; [exact H|]. simpl. intros q Hq.
    by destruct (blank q).
  - intros H HF. apply Exists_exists in H as (q & Hin & Hq).
    rewrite Forall_forall in HF. specialize (HF q Hin). congruence.
Qed.

(** ** Starting research *)

Example startResearch_blank_questions :
  startResearch None
    (setQuestions [lit "  "; []] (setWebsiteUrl (lit "https://example.com") initial_state))
  = (setError (Some (lit "Please enter at least one research question"))
       (setQuestions [lit "  "; []]
          (setWebsiteUrl (lit "https://example.com") initial_state)), []).
Proof. reflexivity. Qed.

Example startResearch_sends :
  (startResearch None
     (setQuestions [lit " "; lit "What do they sell? "]
        (setWebsiteUrl (lit "https://example.com") initial_state))).2
  = [Fetch POST (lit "http://localhost:8001/research")
       (Some {| website_url := lit "https://example.com";
                req_questions := [lit "What do they sell? "];
                model := lit "claude-sonnet-4-20250514";
                max_pages := 30; max_depth := 2 |})].
Proof. reflexivity. Qed.

(** The only request [startResearch] can ask for, with the fields of
    its body. *)
Lemma startResearch_request (env : option js_string) (st : state) (e : effect) :
  e ∈ (startResearch env st).2 ->
  exists body,
    e = Fetch POST (API_BASE env ++ lit "/research") (Some body) /\
    website_url body = websiteUrl st /\
    req_questions body = validQuestions (questions st) /\
    model body = selectedModel st /\
    max_pages body = maxPages st /\
    max_depth body = maxDepth st.
Proof.
  unfold startResearch.
  destruct (truthy (websiteUrl st)); simpl; [|by inversion 1].
  destruct (length (validQuestions (questions st)) =? 0)%nat; simpl;
    [by inversion 1|].
  intros ->%list_elem_of_singleton. eexists. split; [reflexivity|]. done.
Qed.

(** C1. An attempt to start research in which the URL field is empty, or
    every entered question is empty or white space only, sends nothing
    and sets an error message; every request that is sent comes from a
    non-empty URL and at least one question that survives the filter,
    carries exactly the surviving questions (a list [create_job] does
    not reject as empty), and such an attempt does send one request. *)
Theorem startResearch_sends_iff_valid (env : option js_string) (st : state) :
  let out := startResearch env st in
  ((websiteUrl st = [] \/ Forall (fun q => blank q = true) (questions st)) ->
     out.2 = [] /\
     error out.1 =
       Some (if decide (websiteUrl st = [])
             then lit "Please enter a website URL"
             else lit "Please enter at least one research question")) /\
  (forall e, e ∈ out.2 ->
     websiteUrl st <> [] /\
     Exists (fun q => blank q = false) (questions st) /\
     exists body,
       e = Fetch POST (API_BASE env ++ lit "/research") (Some body) /\
       website_url body = websiteUrl st /\
       req_questions body = validQuestions (questions st) /\
       Orchestrator.create_job_rejects_questions (req_questions body) = false) /\
  (websiteUrl st <> [] ->
   Exists (fun q => blank q = false) (questions st) ->
   exists body,
     out.2 = [Fetch POST (API_BASE env ++ lit "/research") (Some body)]).
Proof.
  unfold startResearch.
  destruct (websiteUrl st) as [|c u] eqn:Hu; simpl.
  { split; [|split]; [done | intros e He; inversion He | done]. }
  destruct (validQuestions (questions st)) as [|q qs] eqn:Hv; simpl.
  - assert (HF : Forall (fun q => blank q = true) (questions st))
      by by apply validQuestions_nil.
    split; [|split].
    + done.
    + intros e He; inversion He.
    + intros _ HE. apply validQuestions_cons in HE. congruence.
  - assert (HE : Exists (fun q => blank q = false) (questions st)).
    { apply validQuestions_cons. congruence. }
    split; [|split].
    + intros [?|HF]; [done|]. apply validQuestions_nil in HF. congruence.
    + intros e He. apply list_elem_of_singleton in He as ->.
      split; [done|]. split; [done|]. eexists. split; [reflexivity|]. done.
    + intros _ _. eexists. reflexivity.
Qed.

(** ** The crawl *)

Section CrawlProperties.

Import Crawler.

Variable fetch : string -> option extracted.
Variables max_pages max_depth : nat.

Local Abbreviation inv := (crawl_inv max_pages max_depth).
Local Abbreviation post := (crawl_post max_pages max_depth).

Lemma crawl_inv_post visited result : inv visited result -> post result.
Proof.
  intros (Hnd & Hall & Hlen). repeat split; [done | | done].
  eapply Forall_impl; [exact Hall|]. by intros p [_ ?].
Qed.

Lemma crawl_inv_visit visited result u :
  inv visited result -> inv ({[u]} ∪ visited) result.
Proof.
  intros (Hnd & Hall & Hlen). repeat split; [done | | done].
  eapply Forall_impl; [exact Hall|]. intros p [? ?]. split; [set_solver | done].
Qed.

Lemma crawl_inv_append visited result t ex :
  inv visited result ->
  url t ∉ visited ->
  (depth t <= max_depth)%nat ->
  (length result < max_pages)%nat ->
  inv ({[url t]} ∪ visited)
    (result ++ [{| page_url := url t; title := ex_title ex;
                   extracted_text := ex_text ex; page_depth := depth t;
                   outbound_links := ex_links ex |}]).
Proof.
  intros Hinv Hnew Hd Hlt.
  destruct (crawl_inv_visit _ _ (url t) Hinv) as (_ & Hall' & _).
  destruct Hinv as (Hnd & Hall & Hlen). repeat split.
  - rewrite fmap_app. apply NoDup_app. split; [done|]. split.
    + intros u Hu Hu'. simpl in Hu'. apply list_elem_of_singleton in Hu' as ->.
      apply list_elem_of_fmap in Hu as (p & Hp & Hin).
      rewrite Forall_forall in Hall. destruct (Hall p Hin) as [Hv _].
      rewrite <- Hp in Hv. done.
    + simpl. apply NoDup_singleton.
  - apply Forall_app. split; [done|].
    constructor; [|constructor]. simpl. split; [set_solver | done].
  - rewrite length_app. simpl. lia.
Qed.

Lemma crawl_loop_post frontier visited result :
  inv visited result ->
  post (crawl_loop fetch max_pages max_depth frontier visited result).
Proof.
  funelim (crawl_loop fetch max_pages max_depth frontier visited result).
  all: intros Hinv.
  - by eapply crawl_inv_post.
  - by eapply crawl_inv_post.
  - auto.
  - match goal with IH : _ -> post _ |- _ => apply IH end.
    match goal with Hb : _ || _ = false |- _ =>
      apply orb_false_iff in Hb as [Hd Hv] end.
    apply bool_decide_eq_false in Hd, Hv.
    apply crawl_inv_append; [done | done | lia | done].
  - match goal with IH : _ -> post _ |- _ => apply IH end.
    by apply crawl_inv_visit.
Qed.

Lemma crawl_inv_start : inv ∅ [].
Proof. repeat split; [constructor | constructor | simpl; lia]. Qed.

(** C2. For every crawl with parameters (seed URL, max_pages,
    max_depth), whatever the fetcher answers, the returned sequence of
    pages has no URL twice, every page's depth is at most max_depth,
    and the sequence is at most max_pages long. *)
Theorem crawl_no_duplicates_within_bounds (seed : string) :
  let pages := crawl fetch max_pages max_depth seed in
  NoDup (page_url <$> pages) /\
  Forall (fun p => (page_depth p <= max_depth)%nat) pages /\
  (length pages <= max_pages)%nat.
Proof. apply crawl_loop_post, crawl_inv_start. Qed.

End CrawlProperties.

Example crawl_cyclic_site :
  Crawler.page_url <$> Crawler.crawl cyclic_site 5 2 "a" = ["a"; "b"; "d"; "e"].
Proof. vm_compute. reflexivity. Qed.

Example crawl_cyclic_site_budget :
  Crawler.page_url <$> Crawler.crawl cyclic_site 2 2 "a" = ["a"; "b"].
Proof. vm_compute. reflexivity. Qed.

Example crawl_cyclic_site_depth :
  (fun p => (Crawler.page_url p, Crawler.page_depth p))
    <$> Crawler.crawl cyclic_site 5 1 "a"
  = [("a", 0%nat); ("b", 1%nat); ("d", 1%nat)].
Proof. vm_compute. reflexivity. Qed.

Example crawl_seed_only :
  Crawler.page_url <$> Crawler.crawl cyclic_site 1 0 "a" = ["a"].
Proof. vm_compute. reflexivity. Qed.

(** ** Polling *)

Lemma is_terminal_spec (job : Job.t) :
  is_terminal job = true <-> terminal_status job.
Proof.
  unfold is_terminal, terminal_status, status_is.
  rewrite !orb_true_iff, !bool_decide_eq_true. tauto.
Qed.

Lemma is_terminal_false (job : Job.t) :
  is_terminal job = false <-> ~ terminal_status job.
Proof.
  rewrite <- is_terminal_spec. destruct (is_terminal job); split; congruence.
Qed.

(** The three terminal statuses the client tests for are the names of
    the terminal states of the job state machine. *)
Lemma terminal_status_names (job : Job.t) :
  terminal_status job <->
  exists s, Orchestrator.terminal s = true /\
            Job.status job = Some (lit (Orchestrator.name s)).
Proof.
  unfold terminal_status. split.
  - intros [H|[H|H]];
      [exists Orchestrator.completed | exists Orchestrator.failed
      | exists Orchestrator.cancelled]; by split.
  - intros (s & Ht & Hs). destruct s; try discriminate Ht; simpl in Hs; tauto.
Qed.

(** A settled poll asks for nothing, or for one timer of 2000 ms on the
    same job. *)
Lemma pollJobStatus_settled_effects jobId r st :
  (pollJobStatus_settled jobId r st).2 = [] \/
  (pollJobStatus_settled jobId r st).2 = [SetTimeout 2000 jobId] /\
  exists job, r = Fulfilled job /\ is_terminal job = false.
Proof.
  destruct r as [job|msg]; simpl; [|by left].
  destruct (is_terminal job) eqn:Ht.
  - left. by destruct (status_is job "failed").
  - right. eauto.
Qed.

Lemma pollJobStatus_settled_terminal jobId job st :
  terminal_status job ->
  (pollJobStatus_settled jobId (Fulfilled job) st).2 = [] /\
  isLoading (pollJobStatus_settled jobId (Fulfilled job) st).1 = false /\
  currentJob (pollJobStatus_settled jobId (Fulfilled job) st).1 = Some job.
Proof.
  intros Ht%is_terminal_spec. simpl. rewrite Ht.
  by destruct (status_is job "failed").
Qed.

Lemma pollJobStatus_settled_running jobId job st :
  ~ terminal_status job ->
  pollJobStatus_settled jobId (Fulfilled job) st
  = (setCurrentJob (Some job) st, [SetTimeout 2000 jobId]).
Proof. intros Ht%is_terminal_false. simpl. by rewrite Ht. Qed.

(** A session issues at most one request per answer that let it go on,
    and one more. *)
Lemma poll_session_requests env answers : forall jobId st n job,
  answers !! n = Some (Fulfilled job) ->
  terminal_status job ->
  (requests (poll_session env jobId answers st).2 <= S n)%nat /\
  poll_session env jobId answers st
  = poll_session env jobId (take (S n) answers) st.
Proof.
  induction answers as [|r answers IH]; intros jobId st n job Hn Ht; [done|].
  cbn [poll_session take].
  destruct (pollJobStatus_settled_effects jobId r st)
    as [He|(He & job' & -> & Hrun)].
  - destruct (pollJobStatus_settled jobId r st) as [st1 effs].
    simpl in He. subst effs. split; [unfold requests; simpl; lia|].
    destruct n; reflexivity.
  - destruct n as [|n].
    { simpl in Hn. injection Hn as ->. apply is_terminal_spec in Ht. congruence. }
    simpl in Hn. specialize (IH jobId (setCurrentJob (Some job') st) n job Hn Ht).
    destruct IH as [IHn IHeq].
    destruct (pollJobStatus_settled jobId (Fulfilled job') st)
      as [st1 effs] eqn:Hp.
    simpl in He. subst effs.
    assert (st1 = setCurrentJob (Some job') st) as ->.
    { simpl in Hp. rewrite Hrun in Hp. congruence. }
    rewrite <- IHeq.
    destruct (poll_session env jobId answers (setCurrentJob (Some job') st))
      as [st2 out] eqn:Hs.
    split; [|reflexivity]. unfold requests in *. simpl in *. lia.
Qed.

Lemma transition_terminal (s : Orchestrator.status) (sig : Orchestrator.signal) :
  Orchestrator.terminal s = true -> Orchestrator.transition s sig = s.
Proof. unfold Orchestrator.transition. by intros ->. Qed.

Lemma transitions_terminal (sigs : list Orchestrator.signal) :
  forall s, Orchestrator.terminal s = true -> Orchestrator.transitions s sigs = s.
Proof.
  unfold Orchestrator.transitions.
  induction sigs as [|sig sigs IH]; intros s Ht; simpl; [done|].
  rewrite transition_terminal by done. by apply IH.
Qed.

Example poll_session_ex :
  let running := {| Job.status := Some (lit "summarizing"); Job.progress := None;
                    Job.pages_scraped := None; Job.summaries := None;
                    Job.report := None; Job.error := None |} in
  let done := {| Job.status := Some (lit "cancelled"); Job.progress := None;
                 Job.pages_scraped := None; Job.summaries := None;
                 Job.report := None; Job.error := None |} in
  (poll_session None (lit "j1")
     [Fulfilled running; Fulfilled done; Fulfilled running] initial_state).2
  = [Fetch GET (lit "http://localhost:8001/research/j1") None;
     SetTimeout 2000 (lit "j1");
     Fetch GET (lit "http://localhost:8001/research/j1") None].
Proof. reflexivity. Qed.

(** C3. A job's status is monotonic: from [failed], [cancelled] or
    [completed] no signal changes it any more; correspondingly a client
    that receives a snapshot with one of these three statuses asks for
    nothing further (no timer, no request), and in a polling session
    whose n-th answer is such a snapshot at most n + 1 requests are
    issued, the later answers never being asked for. *)
Theorem terminal_status_ends_transitions_and_polling :
  (forall s sigs,
     Orchestrator.terminal s = true -> Orchestrator.transitions s sigs = s) /\
  (forall jobId job st s,
     Orchestrator.terminal s = true ->
     Job.status job = Some (lit (Orchestrator.name s)) ->
     (pollJobStatus_settled jobId (Fulfilled job) st).2 = []) /\
  (forall env jobId answers st n job s,
     Orchestrator.terminal s = true ->
     Job.status job = Some (lit (Orchestrator.name s)) ->
     answers !! n = Some (Fulfilled job) ->
     (requests (poll_session env jobId answers st).2 <= S n)%nat /\
     poll_session env jobId answers st
     = poll_session env jobId (take (S n) answers) st).
Proof.
  split; [|split].
  - intros s sigs Ht. by apply transitions_terminal.
  - intros jobId job st s Ht Hs.
    apply pollJobStatus_settled_terminal, terminal_status_names. eauto.
  - intros env jobId answers st n job s Ht Hs Hn.
    eapply poll_session_requests; [exact Hn|].
    apply terminal_status_names. eauto.
Qed.

(** C4. For every job snapshot that [pollJobStatus] receives, another
    poll of the same job is scheduled, after 2000 ms, if and only if the
    status is none of 'completed', 'failed', 'cancelled'; on any of the
    three the loading flag is cleared and nothing is scheduled; the
    timer, when it fires, polls the same job. *)
Theorem pollJobStatus_reschedules_iff_not_terminal
    (env : option js_string) (jobId : js_string) (job : Job.t) (st : state) :
  let out := pollJobStatus_settled jobId (Fulfilled job) st in
  (SetTimeout 2000 jobId ∈ out.2 <-> ~ terminal_status job) /\
  (forall e, e ∈ out.2 -> e = SetTimeout 2000 jobId) /\
  (~ terminal_status job -> out.2 = [SetTimeout 2000 jobId]) /\
  (terminal_status job -> isLoading out.1 = false /\ out.2 = []) /\
  step env (TimerFired jobId) out.1 = (out.1, [pollJobStatus env jobId]).
Proof.
  destruct (decide (is_terminal job = true)) as [Ht|Ht].
  - apply is_terminal_spec in Ht.
    destruct (pollJobStatus_settled_terminal jobId job st Ht) as (He & Hl & _).
    cbv zeta. rewrite He. repeat split.
    + intros Hin. inversion Hin.
    + done.
    + intros e Hin. inversion Hin.
    + done.
    + done.
  - apply not_true_is_false, is_terminal_false in Ht.
    cbv zeta. rewrite (pollJobStatus_settled_running jobId job st Ht).
    repeat split.
    + done.
    + intros _. apply list_elem_of_singleton. reflexivity.
    + intros e Hin. by apply list_elem_of_singleton in Hin.
    + done.
    + done.
Qed.

(** ** A failed job *)

(** C7, as stated, fails. A failed snapshot that carries a report has
    its error stored but not displayed: the results view replaces the
    form and its banner. A failed snapshot without a report has its
    pages stored but not displayed: the report viewer, which lists
    them, is not shown. *)
Lemma failed_job_display_fails :
  let page := {| Job.page_url := lit "https://example.com";
                 Job.page_title := Some (lit "Example");
                 Job.page_depth := 0 |} in
  let without_report :=
    {| Job.status := Some (lit "failed"); Job.progress := None;
       Job.pages_scraped := Some [page]; Job.summaries := Some [];
       Job.report := None;
       Job.error := Some (lit "No pages could be summarized") |} in
  let with_report :=
    {| Job.status := Some (lit "failed"); Job.progress := None;
       Job.pages_scraped := Some [page]; Job.summaries := Some [];
       Job.report := Some (lit "# Partial report");
       Job.error := Some (lit "Report generation failed") |} in
  let after job :=
    (pollJobStatus_settled (lit "j1") (Fulfilled job)
       (setIsLoading true initial_state)).1 in
  error_banner (after with_report) <> Job.error with_report /\
  viewer_job (after without_report) <> Some without_report.
Proof. split; discriminate. Qed.

(** C7, amended. When a polled snapshot has status 'failed', the error
    message of the client becomes exactly the job's recorded error
    field and the snapshot is kept whole as the current job, its pages
    scraped and summaries with it. The message is displayed, in the
    banner of the form, exactly when the snapshot has no report and the
    error is a non-empty string; the pages and summaries are handed to
    the report viewer exactly when the snapshot has a report. *)
Theorem failed_job_error_state_and_display
    (jobId : js_string) (job : Job.t) (st : state) :
  Job.status job = Some (lit "failed") ->
  let st' := (pollJobStatus_settled jobId (Fulfilled job) st).1 in
  error st' = Job.error job /\
  currentJob st' = Some job /\
  isLoading st' = false /\
  error_banner st'
  = (if truthy_opt (Job.report job) then None
     else if truthy_opt (Job.error job) then Job.error job else None) /\
  viewer_job st' = (if truthy_opt (Job.report job) then Some job else None).
Proof.
  intros Hs. simpl.
  assert (Hf : status_is job "failed" = true)
    by (unfold status_is; by apply bool_decide_eq_true).
  assert (Ht : is_terminal job = true)
    by (unfold is_terminal; rewrite Hf; by destruct (status_is job "completed")).
  rewrite Ht, Hf. simpl.
  unfold error_banner, viewer_job, shows_results. simpl.
  split; [done|]. split; [done|]. split; [done|]. split; [|done].
  destruct (truthy_opt (Job.report job)); [done|].
  destruct (Job.error job) as [m|]; [|done]. simpl. by destruct (truthy m).
Qed.

(** At a failed job with a recorded error, two pages scraped and no
    report. *)
Lemma failed_job_error_state_and_display_witness :
  let job := {| Job.status := Some (lit "failed");
                Job.progress := None;
                Job.pages_scraped :=
                  Some [ {| Job.page_url := lit "https://example.com";
                            Job.page_title := Some (lit "Example");
                            Job.page_depth := 0 |};
                         {| Job.page_url := lit "https://example.com/about";
                            Job.page_title := None;
                            Job.page_depth := 1 |} ];
                Job.summaries := Some [];
                Job.report := None;
                Job.error := Some (lit "No pages could be summarized") |} in
  let st' := (pollJobStatus_settled (lit "j1") (Fulfilled job)
                (setIsLoading true initial_state)).1 in
  Job.status job = Some (lit "failed") /\
  error st' = Some (lit "No pages could be summarized") /\
  currentJob st' = Some job /\
  error_banner st' = Some (lit "No pages could be summarized") /\
  viewer_job st' = None.
Proof.
  intros job st'.
  pose proof (failed_job_error_state_and_display (lit "j1") job
                (setIsLoading true initial_state) eq_refl)
    as (He & Hj & _ & Hb & Hv).
  split; [reflexivity|]. split; [exact He|]. split; [exact Hj|].
  split; [exact Hb | exact Hv].
Defined.

(** ** Reset *)

(** C10. [resetForm] clears the current job, the error message, the
    website URL and the question list (back to one blank entry) and
    leaves every other cell as it was: the selected model, the models
    mapping, maxPages and maxDepth, as well as the loading flag and the
    settings toggle. *)
Theorem resetForm_clears_form_only (st : state) :
  currentJob (resetForm st) = None /\
  error (resetForm st) = None /\
  websiteUrl (resetForm st) = [] /\
  questions (resetForm st) = [[]] /\
  selectedModel (resetForm st) = selectedModel st /\
  models (resetForm st) = models st /\
  maxPages (resetForm st) = maxPages st /\
  maxDepth (resetForm st) = maxDepth st /\
  isLoading (resetForm st) = isLoading st /\
  showSettings (resetForm st) = showSettings st.
Proof. repeat split. Qed.

(** ** The base URL *)

(** C9 (the code departs from its README).  With REACT_APP_API_URL
    unset, the base URL of every backend request (model listing,
    research creation, status polling) is 'http://localhost:8001', not
    the 'http://localhost:8000' that the README documents. *)
Theorem API_BASE_unset_is_port_8001 :
  API_BASE None = lit "http://localhost:8001" /\
  API_BASE None <> README_default_API_URL /\
  fetchModels None = Fetch GET (lit "http://localhost:8001/models") None /\
  (forall st e, e ∈ (startResearch None st).2 ->
     exists body,
       e = Fetch POST (lit "http://localhost:8001/research") (Some body)) /\
  (forall jobId,
     pollJobStatus None jobId
     = Fetch GET (lit "http://localhost:8001/research/" ++ jobId) None).
Proof.
  split; [reflexivity|]. split; [discriminate|]. split; [reflexivity|].
  split; [|reflexivity].
  intros st e He.
  destruct (startResearch_request None st e He) as (body & -> & _).
  by exists body.
Qed.

(** ** Invariants of a run *)

Section RunInvariant.

Variable env : option js_string.
Variable I : state -> Prop.
Variable P : effect -> Prop.

Hypothesis step_keeps :
  forall ev st, I st -> I (step env ev st).1 /\ Forall P (step env ev st).2.

Lemma run_from_invariant (evs : list event) : forall st out,
  I st -> Forall P out ->
  I (run_from env evs st out).1 /\ Forall P (run_from env evs st out).2.
Proof.
  induction evs as [|ev evs IH]; intros st out HI HP; simpl; [done|].
  destruct (step_keeps ev st HI) as [HI' HP'].
  destruct (step env ev st) as [st' effs]. simpl in *.
  apply IH; [done|]. by apply Forall_app.
Qed.

Lemma run_invariant (evs : list event) :
  I initial_state -> P (fetchModels env) ->
  I (run env evs).1 /\ Forall P (run env evs).2.
Proof.
  intros HI HP. apply run_from_invariant; [done|]. by constructor.
Qed.

End RunInvariant.

(** ** The advanced settings *)

Lemma range_value_within (min max position : Z) :
  min <= max -> min <= range_value min max position <= max.
Proof. unfold range_value. lia. Qed.

(** No member of a literal list of effects has the shape looked for. *)
Ltac no_such_effect :=
  let He := fresh "He" in
  intros He;
  repeat (apply elem_of_cons in He as [He|He]; [discriminate He|]);
  by apply elem_of_nil in He.

(** Only [startResearch] sends a body. *)
Lemma step_request_body env ev st m u body :
  Fetch m u (Some body) ∈ (step env ev st).2 ->
  max_pages body = maxPages st /\ max_depth body = maxDepth st.
Proof.
  destruct ev; simpl; try no_such_effect.
  - destruct r; simpl; no_such_effect.
  - case_match; simpl; no_such_effect.
  - intros He. apply startResearch_request in He as (b & Hb & _ & _ & _ & ? & ?).
    by simplify_eq.
  - unfold startResearch_settled, startResearch_catch, pollJobStatus.
    repeat case_match; simpl; no_such_effect.
  - intros He. destruct (pollJobStatus_settled_effects jobId r st)
      as [Hn|[Hn _]]; rewrite Hn in He; revert He; no_such_effect.
Qed.

Lemma step_settings env ev st :
  settings_in_slider_ranges st -> settings_in_slider_ranges (step env ev st).1.
Proof.
  unfold settings_in_slider_ranges. intros Hst.
  destruct ev; simpl; try done.
  - by destruct r.
  - by case_match.
  - split; [|tauto]. apply range_value_within. lia.
  - split; [tauto|]. apply range_value_within. lia.
  - unfold startResearch. by repeat case_match.
  - unfold startResearch_settled, startResearch_catch. by repeat case_match.
  - destruct r; simpl; [|done]. by repeat case_match.
Qed.

(** C6. Every job-creation request the front end can issue carries
    max_pages and max_depth within the ranges [create_job] accepts,
    [1,100] and [0,5]: the defaults are 30 and 2, the two sliders
    confine the values to [10,100] and [1,5], and this holds of every
    request of every run; the contract, for its part, also accepts
    max_depth = 0. *)
Theorem requests_within_create_job_ranges :
  maxPages initial_state = 30 /\
  maxDepth initial_state = 2 /\
  (forall position,
     10 <= range_value 10 100 position <= 100 /\
     1 <= range_value 1 5 position <= 5) /\
  (forall env evs,
     settings_in_slider_ranges (run env evs).1 /\
     forall m u body,
       Fetch m u (Some body) ∈ (run env evs).2 ->
       request_in_slider_ranges body /\
       Orchestrator.create_job_ranges (max_pages body) (max_depth body)) /\
  (forall pages,
     1 <= pages <= 100 -> Orchestrator.create_job_ranges pages 0).
Proof.
  split; [reflexivity|]. split; [reflexivity|]. split; [|split].
  - intros p. split; apply range_value_within; lia.
  - intros env evs.
    destruct (run_invariant env settings_in_slider_ranges
                (fun e => forall m u body,
                     e = Fetch m u (Some body) -> request_in_slider_ranges body))
      with (evs := evs) as [HI HP].
    + intros ev st Hst. split; [by apply step_settings|].
      apply Forall_forall. intros e He m u body ->.
      apply step_request_body in He as [Hp Hd].
      unfold request_in_slider_ranges. rewrite Hp, Hd. exact Hst.
    + unfold settings_in_slider_ranges. simpl. lia.
    + intros m u body. unfold fetchModels. congruence.
    + split; [exact HI|]. intros m u body Hin.
      rewrite Forall_forall in HP. specialize (HP _ Hin m u body eq_refl).
      split; [exact HP|].
      unfold request_in_slider_ranges, Orchestrator.create_job_ranges in *. lia.
  - intros pages Hp. unfold Orchestrator.create_job_ranges. lia.
Qed.

(** ** The question rows *)

Example removeQuestion_ex :
  removeQuestion [lit "a"; lit "b"; lit "c"] 1 = [lit "a"; lit "c"].
Proof. reflexivity. Qed.

Example removeQuestion_last_row : removeQuestion [lit "a"] 0 = [lit "a"].
Proof. reflexivity. Qed.

Lemma addQuestion_length (qs : list js_string) :
  length (addQuestion qs) = S (length qs).
Proof. unfold addQuestion. rewrite length_app. simpl. lia. Qed.

Lemma updateQuestion_length (qs : list js_string) (index : nat) (value : js_string) :
  (index < length qs)%nat -> length (updateQuestion qs index value) = length qs.
Proof. intros _. apply length_insert. Qed.

(** Past the index nothing is filtered out. *)
Lemma filter_index_ne_past {A} (l : list A) : forall i index,
  (index < i)%nat -> filter_index_ne l i index = l.
Proof.
  induction l as [|x l IH]; intros i index Hlt; simpl; [done|].
  destruct (decide (i ≠ index)); [|lia]. f_equal. apply IH. lia.
Qed.

(** The filter drops at most one entry. *)
Lemma filter_index_ne_length {A} (l : list A) : forall i index,
  (length l <= S (length (filter_index_ne l i index)))%nat.
Proof.
  induction l as [|x l IH]; intros i index; simpl; [lia|].
  destruct (decide (i ≠ index)) as [Hne|Heq]; simpl.
  - specialize (IH (S i) index). lia.
  - rewrite filter_index_ne_past by lia. lia.
Qed.

Lemma removeQuestion_single (qs : list js_string) (index : nat) :
  length qs = 1%nat -> removeQuestion qs index = qs.
Proof. unfold removeQuestion. by intros ->. Qed.

Lemma removeQuestion_nonempty (qs : list js_string) (index : nat) :
  qs <> [] -> removeQuestion qs index <> [].
Proof.
  unfold removeQuestion. intros Hne.
  destruct (1 <? length qs)%nat eqn:Hlen; [|done].
  apply Nat.ltb_lt in Hlen.
  pose proof (filter_index_ne_length qs 0 index) as Hl.
  intros Heq. rewrite Heq in Hl. simpl in Hl. lia.
Qed.

Lemma step_questions_nonempty env ev st :
  questions st <> [] -> questions (step env ev st).1 <> [].
Proof.
  intros Hne. destruct ev; simpl; try done.
  - by destruct r.
  - unfold addQuestion. by destruct (questions st).
  - case_match; [|done]. simpl. unfold updateQuestion.
    intros Heq. apply (f_equal length) in Heq.
    rewrite length_insert in Heq. by destruct (questions st).
  - by apply removeQuestion_nonempty.
  - unfold startResearch. by repeat case_match.
  - unfold startResearch_settled, startResearch_catch. by repeat case_match.
  - destruct r; simpl; [|done]. by repeat case_match.
Qed.

(** C8. The list of question inputs is never empty: it starts with one
    entry, [addQuestion] makes it one longer, [updateQuestion] on a row
    keeps its length, [removeQuestion] does nothing to a list of exactly
    one entry (whose remove button is disabled) and never empties a
    list, so that after any sequence of events at least one row exists. *)
Theorem questions_never_empty :
  questions initial_state = [[]] /\
  (forall qs, length (addQuestion qs) = S (length qs)) /\
  (forall qs index value,
     (index < length qs)%nat ->
     length (updateQuestion qs index value) = length qs) /\
  (forall qs index,
     length qs = 1%nat ->
     removeQuestion qs index = qs /\ remove_disabled qs = true) /\
  (forall qs, remove_disabled qs = true <-> length qs = 1%nat) /\
  (forall qs index, qs <> [] -> removeQuestion qs index <> []) /\
  (forall env evs, (1 <= length (questions (run env evs).1))%nat).
Proof.
  split; [reflexivity|]. split; [exact addQuestion_length|].
  split; [exact updateQuestion_length|]. split; [|split; [|split]].
  - intros qs index Hlen. split; [by apply removeQuestion_single|].
    unfold remove_disabled. by apply bool_decide_eq_true.
  - intros qs. unfold remove_disabled. apply bool_decide_eq_true.
  - exact removeQuestion_nonempty.
  - intros env evs.
    destruct (run_invariant env (fun st => questions st <> []) (fun _ => True))
      with (evs := evs) as [HI _].
    + intros ev st Hst. split; [by apply step_questions_nonempty|].
      by apply Forall_forall.
    + done.
    + done.
    + destruct (questions (run env evs).1); [done | simpl; lia].
Qed.

(** ** The stage emoji *)

Example progress_emoji_scraping :
  progress_emoji {| Job.stage := lit "scraping"; Job.message := lit "Scraping";
                    Job.percent := 10 |} = Val Spider.
Proof. reflexivity. Qed.

Example progress_emoji_inherited :
  progress_emoji {| Job.stage := lit "constructor"; Job.message := [];
                    Job.percent := 0 |} = Inherited (lit "constructor").
Proof. reflexivity. Qed.

Lemma own_property_is_Some {A} (o : list (js_string * A)) (key : js_string) :
  is_Some (own_property o key) <-> key ∈ o.*1.
Proof.
  induction o as [|[k v] o IH]; simpl.
  - rewrite elem_of_nil. split; [by intros [? ?] | done].
  - rewrite elem_of_cons. destruct (decide (k = key)) as [->|Hne].
    + split; [by left | by eexists].
    + rewrite IH. split; [by right | by intros [?|?]].
Qed.

(** The access gives a value of the literal for its own keys only. *)
Lemma property_get_Val {A} (o : list (js_string * A)) (key : js_string) :
  (exists v, property_get o key = Some (Val v)) <-> key ∈ o.*1.
Proof.
  rewrite <- own_property_is_Some. unfold property_get.
  destruct (own_property o key) as [v|].
  - split; [by eexists | by eexists].
  - split; [|by intros [? ?]]. intros [v Hv]. by case_match.
Qed.

(** The access is [undefined] for the names that are neither own keys
    nor members of the prototype. *)
Lemma property_get_None {A} (o : list (js_string * A)) (key : js_string) :
  property_get o key = None <-> (key ∉ o.*1) /\ (key ∉ Object_prototype_keys).
Proof.
  rewrite <- own_property_is_Some. unfold property_get.
  destruct (own_property o key) as [v|].
  - split; [done|]. intros [H _]. exfalso. apply H. by eexists.
  - case_bool_decide as Hk.
    + split; [done | tauto].
    + split; [|done]. intros _. split; [by intros [? ?] | done].
Qed.

(** The own keys of [stageEmoji]. *)
Lemma stageEmoji_keys (key : js_string) :
  is_Some (own_property stageEmoji key) <->
  key ∈ (lit <$> ["initializing"; "scraping"; "summarizing"; "categorizing";
                  "reporting"; "complete"; "error"]).
Proof. apply own_property_is_Some. Qed.

Lemma progress_emoji_fallback (p : Job.progress_snapshot) :
  property_get stageEmoji (Job.stage p) = None -> progress_emoji p = Val Hourglass.
Proof. unfold progress_emoji. by intros ->. Qed.

(** C5, as stated, fails: 'pending' is a pipeline state for which the
    stage-to-emoji mapping is undefined. *)
Lemma stageEmoji_misses_pipeline_state :
  ~ (forall s, s ∈ pipeline_stage_names ->
               is_Some (property_get stageEmoji (lit s))).
Proof.
  intros H. destruct (H "pending") as [e He].
  - by left.
  - discriminate He.
Qed.

(** C5, amended. Of the pipeline states pending, crawling, summarizing,
    categorizing, reporting, completed, the stage-to-emoji mapping is
    defined for summarizing, categorizing and reporting, whose emoji
    the progress display shows, and for no other: for pending, crawling
    and completed it is undefined and the display shows the fallback
    hourglass. *)
Theorem stageEmoji_on_pipeline_states :
  (forall s, s ∈ pipeline_stage_names ->
     (is_Some (property_get stageEmoji (lit s)) <->
      s ∈ ["summarizing"; "categorizing"; "reporting"])) /\
  (forall s msg pct,
     s ∈ ["summarizing"; "categorizing"; "reporting"] ->
     exists e,
       own_property stageEmoji (lit s) = Some e /\
       progress_emoji {| Job.stage := lit s; Job.message := msg;
                         Job.percent := pct |} = Val e) /\
  (forall s msg pct,
     s ∈ ["pending"; "crawling"; "completed"] ->
     property_get stageEmoji (lit s) = None /\
     progress_emoji {| Job.stage := lit s; Job.message := msg;
                       Job.percent := pct |} = Val Hourglass).
Proof.
  split; [|split].
  - intros s Hs. unfold pipeline_stage_names in Hs. simpl in Hs.
    repeat (apply elem_of_cons in Hs as [->|Hs]);
      [..| by apply elem_of_nil in Hs].
    all: split;
      [ intros [e He]; first [ discriminate He | set_solver ]
      | intros Hin; first [ by eexists
                          | repeat (apply elem_of_cons in Hin as [Hin|Hin];
                                    [discriminate Hin|]);
                            by apply elem_of_nil in Hin ] ].
  - intros s msg pct Hs.
    repeat (apply elem_of_cons in Hs as [->|Hs]);
      [..| by apply elem_of_nil in Hs]; by eexists.
  - intros s msg pct Hs.
    repeat (apply elem_of_cons in Hs as [->|Hs]);
      [..| by apply elem_of_nil in Hs]; by split.
Qed.

(** * Further properties of the front end *)

(** ** Editing the question rows *)

Lemma filter_index_ne_delete {A} (l : list A) : forall i index,
  (i <= index)%nat -> filter_index_ne l i index = delete (index - i)%nat l.
Proof.
  induction l as [|x l IH]; intros i index Hle; simpl.
  - by destruct (index - i)%nat.
  - destruct (decide (i ≠ index)) as [Hne|Heq].
    + replace (index - i)%nat with (S (index - S i)) by lia.
      simpl. f_equal. apply IH. lia.
    + assert (i = index) as -> by lia.
      rewrite Nat.sub_diag. simpl. apply filter_index_ne_past. lia.
Qed.

(** X1. On a list of more than one question, removing row [index] gives
    the list without its entry at [index], the others in order: one
    entry fewer for the index of a row, the same list for any other
    index. *)
Theorem removeQuestion_deletes_row (qs : list js_string) (index : nat) :
  (1 < length qs)%nat ->
  removeQuestion qs index = take index qs ++ drop (S index) qs /\
  ((index < length qs)%nat -> S (length (removeQuestion qs index)) = length qs) /\
  ((length qs <= index)%nat -> removeQuestion qs index = qs).
Proof.
  intros Hlen. unfold removeQuestion.
  apply Nat.ltb_lt in Hlen as Hb. rewrite Hb.
  rewrite filter_index_ne_delete by lia. rewrite Nat.sub_0_r.
  split; [apply delete_take_drop|]. split.
  - intros Hi. rewrite length_delete; [lia|]. by apply lookup_lt_is_Some.
  - intros Hi. rewrite delete_take_drop.
    rewrite take_ge by lia. rewrite drop_ge by lia. by rewrite app_nil_r.
Qed.

Lemma removeQuestion_deletes_row_witness :
  removeQuestion [lit "a"; lit "b"; lit "c"] 1
  = take 1 [lit "a"; lit "b"; lit "c"] ++ drop 2 [lit "a"; lit "b"; lit "c"].
Proof.
  apply (removeQuestion_deletes_row [lit "a"; lit "b"; lit "c"] 1).
  simpl. lia.
Defined.

(** X2. Adding a question and removing the row just added gives back
    the list, whenever there was a row before. *)
Theorem add_then_remove_last (qs : list js_string) :
  qs <> [] -> removeQuestion (addQuestion qs) (length qs) = qs.
Proof.
  intros Hne.
  assert (Hlen : (1 < length (addQuestion qs))%nat).
  { rewrite addQuestion_length. destruct qs; [done | simpl; lia]. }
  unfold removeQuestion. apply Nat.ltb_lt in Hlen. rewrite Hlen.
  rewrite filter_index_ne_delete by lia. rewrite Nat.sub_0_r.
  unfold addQuestion. rewrite delete_take_drop.
  rewrite take_app_length. rewrite drop_ge by (rewrite length_app; simpl; lia).
  by rewrite app_nil_r.
Qed.

Lemma add_then_remove_last_witness :
  removeQuestion (addQuestion [lit "a"]) 1 = [lit "a"].
Proof. apply (add_then_remove_last [lit "a"]). discriminate. Defined.

(** X3. On a list of more than one question, what was typed into a row
    does not matter once the row is removed: editing row [index] and
    then removing it gives what removing it gives. *)
Theorem update_then_remove_row (qs : list js_string) (index : nat)
    (value : js_string) :
  (1 < length qs)%nat ->
  (index < length qs)%nat ->
  removeQuestion (updateQuestion qs index value) index = removeQuestion qs index.
Proof.
  intros Hlen Hi. unfold removeQuestion, updateQuestion.
  rewrite length_insert.
  apply Nat.ltb_lt in Hlen. rewrite Hlen.
  rewrite !filter_index_ne_delete by lia. rewrite Nat.sub_0_r.
  rewrite !delete_take_drop.
  rewrite take_insert_ge by lia. rewrite drop_insert_lt by lia. done.
Qed.

Lemma update_then_remove_row_witness :
  removeQuestion (updateQuestion [lit "a"; lit "b"] 0 (lit "typed")) 0
  = removeQuestion [lit "a"; lit "b"] 0.
Proof.
  apply (update_then_remove_row [lit "a"; lit "b"] 0 (lit "typed"));
    simpl; lia.
Defined.

(** ** What [startResearch] sends and changes *)

Lemma validQuestions_elem (qs : list js_string) (q : js_string) :
  q ∈ validQuestions qs <-> q ∈ qs /\ blank q = false.
Proof.
  unfold validQuestions. rewrite !list_elem_of_In, filter_In, truthy_trim.
  by rewrite negb_true_iff.
Qed.

Lemma validQuestions_sublist (qs : list js_string) :
  sublist (validQuestions qs) qs.
Proof.
  unfold validQuestions. induction qs as [|q qs IH]; simpl; [constructor|].
  destruct (truthy (trim q)); by constructor.
Qed.

Lemma validQuestions_app (qs1 qs2 : list js_string) :
  validQuestions (qs1 ++ qs2) = validQuestions qs1 ++ validQuestions qs2.
Proof. unfold validQuestions. apply List.filter_app. Qed.

(** X4. The questions of a request are the entered questions that are
    not blank, as they were typed (not trimmed) and in the order of
    their rows; filtering what was filtered changes nothing. *)
Theorem validQuestions_keeps_entries_verbatim (qs : list js_string) :
  (forall q, q ∈ validQuestions qs <-> q ∈ qs /\ blank q = false) /\
  sublist (validQuestions qs) qs /\
  validQuestions (validQuestions qs) = validQuestions qs /\
  (Forall (fun q => blank q = false) qs -> validQuestions qs = qs).
Proof.
  split; [exact (validQuestions_elem qs)|].
  split; [exact (validQuestions_sublist qs)|]. split.
  - unfold validQuestions. induction qs as [|q qs IH]; simpl; [done|].
    destruct (truthy (trim q)) eqn:Hq; simpl; [|exact IH].
    rewrite Hq. by f_equal.
  - unfold validQuestions. induction 1 as [|q qs Hq _ IH]; simpl; [done|].
    rewrite truthy_trim, Hq. simpl. by f_equal.
Qed.

(** X5. A blank row, wherever it stands among the questions, changes
    nothing of what [startResearch] asks for. *)
Theorem blank_row_does_not_change_request (env : option js_string)
    (st : state) (qs1 qs2 : list js_string) (q : js_string) :
  blank q = true ->
  (startResearch env (setQuestions (qs1 ++ q :: qs2) st)).2
  = (startResearch env (setQuestions (qs1 ++ qs2) st)).2.
Proof.
  intros Hq. unfold startResearch. simpl.
  assert (Hv : validQuestions (qs1 ++ q :: qs2) = validQuestions (qs1 ++ qs2)).
  { rewrite !validQuestions_app. f_equal. unfold validQuestions. simpl.
    by rewrite truthy_trim, Hq. }
  rewrite Hv. by repeat case_match.
Qed.

Lemma blank_row_does_not_change_request_witness :
  (startResearch None
     (setQuestions ([lit "Who leads it?"] ++ lit "  " :: [lit "What is sold?"])
        (setWebsiteUrl (lit "https://example.com") initial_state))).2
  = (startResearch None
       (setQuestions ([lit "Who leads it?"] ++ [lit "What is sold?"])
          (setWebsiteUrl (lit "https://example.com") initial_state))).2.
Proof.
  apply (blank_row_does_not_change_request None
           (setWebsiteUrl (lit "https://example.com") initial_state)
           [lit "Who leads it?"] [lit "What is sold?"] (lit "  ")).
  reflexivity.
Defined.

(** X6. [startResearch] never changes what the form holds (URL,
    questions, model, models, limits, settings toggle). When it sends
    nothing, only the error message changes: the current job and the
    loading flag stay. When it sends, the error and the current job are
    cleared and the loading flag is set. *)
Theorem startResearch_state_change (env : option js_string) (st : state) :
  let out := startResearch env st in
  (websiteUrl out.1 = websiteUrl st /\ questions out.1 = questions st /\
   selectedModel out.1 = selectedModel st /\ models out.1 = models st /\
   maxPages out.1 = maxPages st /\ maxDepth out.1 = maxDepth st /\
   showSettings out.1 = showSettings st) /\
  (out.2 = [] ->
   currentJob out.1 = currentJob st /\ isLoading out.1 = isLoading st /\
   is_Some (error out.1)) /\
  (out.2 <> [] ->
   currentJob out.1 = None /\ isLoading out.1 = true /\ error out.1 = None).
Proof.
  unfold startResearch.
  destruct (truthy (websiteUrl st)); simpl.
  - destruct (length (validQuestions (questions st)) =? 0)%nat; simpl;
      (split; [done|]); split; try done; intros _; by eauto.
  - split; [done|]. split; [intros _; by eauto | done].
Qed.

(** X7. However the creation request ends, the continuation of
    [startResearch] leaves the form and the current job as they are.
    If [fetch] rejects, if the response is not ok, or if [res.json()]
    rejects, no request follows, the loading flag is cleared and the
    error message is set: to the message of the rejection in the first
    and the last case, to 'Failed to start research' for a response
    that is not ok, whatever its body. Otherwise the state stays and
    exactly one poll of the returned job is made. *)
Theorem startResearch_settled_outcomes (env : option js_string)
    (r : settled create_response) (st : state) :
  let out := startResearch_settled env r st in
  (websiteUrl out.1 = websiteUrl st /\ questions out.1 = questions st /\
   selectedModel out.1 = selectedModel st /\ models out.1 = models st /\
   maxPages out.1 = maxPages st /\ maxDepth out.1 = maxDepth st /\
   showSettings out.1 = showSettings st /\ currentJob out.1 = currentJob st) /\
  (forall job_id,
     r = Fulfilled {| ok := true; json_job_id := Fulfilled job_id |} ->
     out = (st, [Fetch GET (API_BASE env ++ lit "/research/" ++ job_id) None])) /\
  (forall message,
     r = Rejected message ->
     out.2 = [] /\ isLoading out.1 = false /\ error out.1 = Some message) /\
  (forall res,
     r = Fulfilled res -> ok res = false ->
     out.2 = [] /\ isLoading out.1 = false /\
     error out.1 = Some (lit "Failed to start research")) /\
  (forall message,
     r = Fulfilled {| ok := true; json_job_id := Rejected message |} ->
     out.2 = [] /\ isLoading out.1 = false /\ error out.1 = Some message).
Proof.
  split; [|split; [|split; [|split]]].
  - destruct r as [[[] [job_id|message]]|message]; by simpl.
  - by intros job_id ->.
  - by intros message ->.
  - intros res -> Hok. simpl. by rewrite Hok.
  - by intros message ->.
Qed.

(** ** What a settled poll changes *)

(** X8. Whatever a poll settles to, the continuation of
    [pollJobStatus] leaves what the form holds (URL, questions, model,
    models, limits, settings toggle) as it is; a snapshot of a job that
    is still running replaces the current job and changes neither the
    loading flag nor the error message. *)
Theorem pollJobStatus_settled_frame (jobId : js_string) (r : settled Job.t)
    (st : state) :
  let st' := (pollJobStatus_settled jobId r st).1 in
  (websiteUrl st' = websiteUrl st /\ questions st' = questions st /\
   selectedModel st' = selectedModel st /\ models st' = models st /\
   maxPages st' = maxPages st /\ maxDepth st' = maxDepth st /\
   showSettings st' = showSettings st) /\
  (forall job, r = Fulfilled job -> ~ terminal_status job ->
     currentJob st' = Some job /\ isLoading st' = isLoading st /\
     error st' = error st).
Proof.
  split.
  - destruct r as [job|message]; simpl; [|done]. by repeat case_match.
  - intros job -> Ht. by rewrite pollJobStatus_settled_running.
Qed.

(** X9. A snapshot with status 'completed' or 'cancelled' leaves the
    error message as it was; a snapshot with status 'failed' that
    records no error clears the message, so that no error banner is
    shown for it. *)
Theorem pollJobStatus_settled_error (jobId : js_string) (job : Job.t)
    (st : state) :
  let st' := (pollJobStatus_settled jobId (Fulfilled job) st).1 in
  (Job.status job = Some (lit "completed") \/
   Job.status job = Some (lit "cancelled") -> error st' = error st) /\
  (Job.status job = Some (lit "failed") -> Job.error job = None ->
   error st' = None /\ error_banner st' = None).
Proof.
  simpl. unfold is_terminal, status_is. split.
  - intros [Hs|Hs]; rewrite Hs; by repeat case_match.
  - intros Hs He. rewrite Hs, He. simpl.
    unfold error_banner. simpl. split; [done|]. by case_match.
Qed.

(** An answer that does not let the session go on ends it. *)
Lemma poll_session_stops env answers : forall jobId st n r,
  answers !! n = Some r ->
  ~ running_answer r ->
  (requests (poll_session env jobId answers st).2 <= S n)%nat /\
  poll_session env jobId answers st
  = poll_session env jobId (take (S n) answers) st.
Proof.
  induction answers as [|a answers IH]; intros jobId st n r Hn Hr; [done|].
  cbn [poll_session take].
  destruct (pollJobStatus_settled_effects jobId a st)
    as [He|(He & job' & -> & Hrun)].
  - destruct (pollJobStatus_settled jobId a st) as [st1 effs].
    simpl in He. subst effs. split; [unfold requests; simpl; lia|].
    destruct n; reflexivity.
  - apply is_terminal_false in Hrun.
    destruct n as [|n].
    { simpl in Hn. injection Hn as <-. exfalso. apply Hr. by exists job'. }
    simpl in Hn.
    rewrite (pollJobStatus_settled_running jobId job' st Hrun).
    destruct (IH jobId (setCurrentJob (Some job') st) n r Hn Hr) as [IHn IHeq].
    rewrite <- IHeq.
    destruct (poll_session env jobId answers (setCurrentJob (Some job') st))
      as [st2 out].
    split; [|reflexivity]. unfold requests in *. simpl in *. lia.
Qed.

(** X10. A poll that fails is not retried: the last snapshot stays the
    current job, the loading flag is cleared, the message 'Failed to
    fetch job status' is set and nothing is scheduled; in a polling
    session whose n-th answer is a failure at most n + 1 requests are
    made. *)
Theorem failed_poll_is_not_retried (env : option js_string)
    (jobId message : js_string) :
  (forall st,
     pollJobStatus_settled jobId (Rejected message) st
     = (setIsLoading false
          (setError (Some (lit "Failed to fetch job status")) st), [])) /\
  (forall st,
     currentJob (pollJobStatus_settled jobId (Rejected message) st).1
     = currentJob st) /\
  (forall answers st n,
     answers !! n = Some (Rejected message) ->
     (requests (poll_session env jobId answers st).2 <= S n)%nat /\
     poll_session env jobId answers st
     = poll_session env jobId (take (S n) answers) st).
Proof.
  split; [done|]. split; [done|].
  intros answers st n Hn. eapply poll_session_stops; [exact Hn|].
  by intros (job & ? & _).
Qed.

(** X11. Polling has no bound of its own: as long as every answer is a
    snapshot of a running job (whatever its status, a missing one
    included), each answer is followed by a timer and a further
    request, the loading flag and the error message stay, and the
    current job is the last snapshot. *)
Theorem polling_continues_while_running (env : option js_string)
    (answers : list (settled Job.t)) : forall (jobId : js_string) (st : state),
  Forall running_answer answers ->
  let out := poll_session env jobId answers st in
  requests out.2 = S (length answers) /\
  length (List.filter is_timer out.2) = length answers /\
  isLoading out.1 = isLoading st /\
  error out.1 = error st /\
  currentJob out.1
  = match last answers with
    | Some (Fulfilled job) => Some job
    | _ => currentJob st
    end.
Proof.
  induction answers as [|a answers IH]; intros jobId st Hall; [done|].
  inversion Hall as [|? ? (job & -> & Hrun) Hall']; subst.
  cbn [poll_session]. rewrite (pollJobStatus_settled_running jobId job st Hrun).
  specialize (IH jobId (setCurrentJob (Some job) st) Hall').
  destruct (poll_session env jobId answers (setCurrentJob (Some job) st))
    as [st2 out].
  cbv zeta in IH. destruct IH as (Hreq & Htim & Hl & He & Hj).
  cbv zeta. unfold requests in *. simpl in *.
  split; [lia|]. split; [lia|]. split; [done|]. split; [done|].
  rewrite Hj. destruct answers as [|a' answers']; [done|].
  rewrite last_cons_cons.
  destruct (last (a' :: answers')) as [[j|m]|] eqn:Hlast; [done| |].
  - apply last_Some_elem_of in Hlast.
    rewrite Forall_forall in Hall'.
    by destruct (Hall' _ Hlast) as (? & ? & _).
  - by apply last_None in Hlast.
Qed.

Lemma polling_continues_while_running_witness :
  let pending := {| Job.status := Some (lit "pending"); Job.progress := None;
                    Job.pages_scraped := None; Job.summaries := None;
                    Job.report := None; Job.error := None |} in
  let unknown := {| Job.status := None; Job.progress := None;
                    Job.pages_scraped := None; Job.summaries := None;
                    Job.report := None; Job.error := None |} in
  requests (poll_session None (lit "j1")
              [Fulfilled pending; Fulfilled unknown] initial_state).2 = 3%nat.
Proof.
  intros pending unknown.
  apply (polling_continues_while_running None
           [Fulfilled pending; Fulfilled unknown] (lit "j1") initial_state).
  repeat constructor.
  - exists pending. split; [reflexivity|].
    intros [H|[H|H]]; discriminate H.
  - exists unknown. split; [reflexivity|].
    intros [H|[H|H]]; discriminate H.
Defined.

(** ** Form or results *)

(** X12. The results view replaces the form exactly when the snapshot
    just received has a non-empty report, whatever its status, and then
    the viewer gets that snapshot; after a snapshot with a terminal
    status no progress bar is shown, so that a finished job without a
    report leaves the form with neither results nor progress. *)
Theorem results_shown_iff_report (jobId : js_string) (job : Job.t) (st : state) :
  let st' := (pollJobStatus_settled jobId (Fulfilled job) st).1 in
  shows_results st' = truthy_opt (Job.report job) /\
  viewer_job st' = (if truthy_opt (Job.report job) then Some job else None) /\
  viewer_report st'
  = (if truthy_opt (Job.report job) then Job.report job else None) /\
  (terminal_status job -> progress_bar_shown st' = false) /\
  (~ terminal_status job ->
   progress_bar_shown st' = negb (truthy_opt (Job.report job)) && isLoading st).
Proof.
  assert (Hj : currentJob (pollJobStatus_settled jobId (Fulfilled job) st).1
               = Some job).
  { simpl. by repeat case_match. }
  cbv zeta. unfold viewer_report, viewer_job, progress_bar_shown, shows_results.
  rewrite Hj. split; [done|]. split; [done|].
  split; [by destruct (truthy_opt (Job.report job))|]. split.
  - intros Ht.
    destruct (pollJobStatus_settled_terminal jobId job st Ht) as (_ & -> & _).
    by rewrite !andb_false_r.
  - intros Ht. rewrite (pollJobStatus_settled_running jobId job st Ht).
    simpl. by rewrite andb_true_r.
Qed.

(** X13. After 'New Research' the form is shown, empty and without an
    error banner or progress bar; resetting again changes nothing; and
    pressing start right away sends nothing and asks for a URL. *)
Theorem resetForm_then_start (env : option js_string) (st : state) :
  shows_results (resetForm st) = false /\
  error_banner (resetForm st) = None /\
  progress_bar_shown (resetForm st) = false /\
  resetForm (resetForm st) = resetForm st /\
  startResearch env (resetForm st)
  = (setError (Some (lit "Please enter a website URL")) (resetForm st), []).
Proof. repeat split. Qed.

(** ** The report viewer *)

(** X14. Whatever tabs were clicked, the viewer shows exactly one
    panel, that of the tab clicked last (the report before any click),
    and that tab alone is marked active. *)
Theorem ReportViewer_shows_one_panel (clicks : list ReportViewer.tab_button)
    (report : js_string) (job : Job.t) :
  let b := List.last clicks ReportViewer.ReportTab in
  ReportViewer.tab_after clicks = ReportViewer.tab_name b /\
  ReportViewer.content (ReportViewer.tab_after clicks) report job
  = [panel_of b report job] /\
  (forall b', ReportViewer.tab_is_active b' (ReportViewer.tab_after clicks) = true
              <-> b' = b).
Proof.
  assert (Ht : ReportViewer.tab_after clicks
               = ReportViewer.tab_name (List.last clicks ReportViewer.ReportTab)).
  { unfold ReportViewer.tab_after.
    induction clicks as [|c clicks IH] using rev_ind; [done|].
    rewrite fold_left_app, List.last_last. done. }
  cbv zeta. rewrite Ht. split; [done|].
  destruct (List.last clicks ReportViewer.ReportTab); (split; [done|]);
    intros []; simpl; split; intros H; done.
Qed.

(** X15. The pages panel has one row per scraped page, as many as the
    tab label counts (none when the snapshot has no [pages_scraped]);
    a row links to the URL of its page, shows its depth, and reads the
    title when that is a non-empty string, the URL when the title is
    missing or empty, so that its text is never empty for a non-empty
    URL. *)
Theorem ReportViewer_pages_rows (job : Job.t) :
  length (ReportViewer.pages_rows job) = ReportViewer.pages_count job /\
  (Job.pages_scraped job = None ->
   ReportViewer.pages_rows job = [] /\ ReportViewer.pages_count job = 0%nat) /\
  (forall pages i page,
     Job.pages_scraped job = Some pages ->
     pages !! i = Some page ->
     exists row,
       ReportViewer.pages_rows job !! i = Some row /\
       ReportViewer.href row = Job.page_url page /\
       ReportViewer.depth_shown row = Job.page_depth page /\
       (forall t, Job.page_title page = Some t -> t <> [] ->
          ReportViewer.link_text row = t) /\
       (Job.page_title page = None \/ Job.page_title page = Some [] ->
          ReportViewer.link_text row = Job.page_url page) /\
       (Job.page_url page <> [] -> ReportViewer.link_text row <> [])).
Proof.
  unfold ReportViewer.pages_rows, ReportViewer.pages_count.
  split; [|split].
  - destruct (Job.pages_scraped job); [apply length_fmap | done].
  - by intros ->.
  - intros pages i page -> Hi. exists (ReportViewer.page_row_of page).
    rewrite list_lookup_fmap, Hi. split; [done|]. split; [done|]. split; [done|].
    unfold ReportViewer.page_row_of. simpl.
    destruct (Job.page_title page) as [[|c t]|]; simpl.
    + split; [by intros t [= <-] | by split].
    + split; [by intros t' [= <-] |]. split; [by intros [|] | done].
    + split; [done | by split].
Qed.

(** X16. When the results are shown, the report handed to the viewer is
    the non-empty report of the current job, and it is what 'Copy'
    writes to the clipboard and what 'Download' saves as
    research-report.md; when the form is shown there is no viewer. *)
Theorem viewer_report_is_current_report (st : state) :
  (forall report,
     viewer_report st = Some report ->
     report <> [] /\
     shows_results st = true /\
     (exists job, currentJob st = Some job /\ Job.report job = Some report) /\
     ReportViewer.copyToClipboard report = ReportViewer.ClipboardWriteText report /\
     ReportViewer.downloadReport report
     = ReportViewer.Download (lit "research-report.md") (lit "text/markdown")
         report) /\
  (viewer_report st = None <-> shows_results st = false).
Proof.
  unfold viewer_report, viewer_job, shows_results.
  destruct (currentJob st) as [job|]; [|by split].
  destruct (Job.report job) as [[|c r]|] eqn:Hr; simpl; rewrite ?Hr;
    split; try done.
  intros report [= <-]. repeat split; try done. by exists job.
Qed.

(** ** The requests of a run *)

Lemma API_BASE_nonempty (env : option js_string) : API_BASE env <> [].
Proof.
  unfold API_BASE. destruct env as [[|c u]|]; simpl; discriminate.
Qed.

Lemma step_request_under env ev st :
  Forall (request_under (API_BASE env)) (step env ev st).2.
Proof.
  destruct ev; simpl; try by constructor.
  - destruct r; simpl; by repeat constructor.
  - case_match; by constructor.
  - apply Forall_forall. intros e He.
    apply startResearch_request in He as (body & -> & _). done.
  - unfold startResearch_settled, startResearch_catch, pollJobStatus.
    repeat case_match; simpl; repeat constructor. by eexists.
  - destruct (pollJobStatus_settled_effects jobId r st) as [->|[-> _]];
      by repeat constructor.
  - unfold pollJobStatus. repeat constructor. by eexists.
Qed.

(** X17. Every request of every run goes to the configured backend: a
    GET without a body under [API_BASE], or a POST with a body to
    [API_BASE]/research; [API_BASE] is the environment variable as it
    is when that is set and not empty, and is never empty itself. *)
Theorem requests_go_to_API_BASE (env : option js_string) :
  (forall evs e, e ∈ (run env evs).2 -> request_under (API_BASE env) e) /\
  (forall u, env = Some u -> u <> [] -> API_BASE env = u) /\
  API_BASE env <> [].
Proof.
  split; [|split].
  - intros evs e He.
    destruct (run_invariant env (fun _ => True) (request_under (API_BASE env)))
      with (evs := evs) as [_ HP].
    + intros ev st _. split; [done | apply step_request_under].
    + done.
    + unfold fetchModels. simpl. by eexists.
    + rewrite Forall_forall in HP. by apply HP.
  - intros u -> Hu. unfold API_BASE. by destruct u.
  - apply API_BASE_nonempty.
Qed.

Lemma step_posts env ev st :
  (length (List.filter is_post (step env ev st).2)
   <= if is_start_click ev then 1 else 0)%nat.
Proof.
  destruct ev; simpl; try lia.
  - destruct r; simpl; lia.
  - case_match; simpl; lia.
  - unfold startResearch. repeat case_match; simpl; lia.
  - unfold startResearch_settled, startResearch_catch, pollJobStatus.
    repeat case_match; simpl; lia.
  - destruct (pollJobStatus_settled_effects jobId r st) as [->|[-> _]];
      simpl; lia.
Qed.

Lemma run_from_posts env evs : forall st out,
  (length (List.filter is_post (run_from env evs st out).2)
   <= length (List.filter is_post out)
      + length (List.filter is_start_click evs))%nat.
Proof.
  induction evs as [|ev evs IH]; intros st out; simpl; [lia|].
  pose proof (step_posts env ev st) as Hs.
  destruct (step env ev st) as [st' effs]. simpl in Hs.
  specialize (IH st' (out ++ effs)).
  rewrite List.filter_app, length_app in IH.
  destruct (is_start_click ev); simpl; lia.
Qed.

(** X18. The front end creates jobs on clicks only: in every run there
    are at most as many POST requests as clicks on the start button (no
    creation is repeated after a failure, none is made on a timer). *)
Theorem posts_bounded_by_clicks (env : option js_string) (evs : list event) :
  (length (List.filter is_post (run env evs).2)
   <= length (List.filter is_start_click evs))%nat.
Proof.
  unfold run. pose proof (run_from_posts env evs initial_state [fetchModels env]).
  simpl in *. lia.
Qed.

Lemma poll_is_not_models_request env jobId :
  is_models_request (API_BASE env) (pollJobStatus env jobId) = false.
Proof.
  unfold is_models_request, pollJobStatus.
  apply bool_decide_eq_false. intros H%app_inv_head. discriminate H.
Qed.

Lemma step_no_models_request env ev st :
  List.filter (is_models_request (API_BASE env)) (step env ev st).2 = [].
Proof.
  pose proof (poll_is_not_models_request env) as Hpoll.
  destruct ev; cbn [step snd List.filter]; try done.
  - by destruct r.
  - by case_match.
  - unfold startResearch. by repeat case_match.
  - unfold startResearch_settled, startResearch_catch.
    repeat case_match; cbn [snd List.filter]; try done.
    by rewrite Hpoll.
  - by destruct (pollJobStatus_settled_effects jobId r st) as [->|[-> _]].
  - by rewrite Hpoll.
Qed.

Lemma run_from_models_requests env evs : forall st out,
  List.filter (is_models_request (API_BASE env)) (run_from env evs st out).2
  = List.filter (is_models_request (API_BASE env)) out.
Proof.
  induction evs as [|ev evs IH]; intros st out; simpl; [done|].
  pose proof (step_no_models_request env ev st) as Hs.
  destruct (step env ev st) as [st' effs]. simpl in Hs.
  rewrite IH, List.filter_app, Hs. apply app_nil_r.
Qed.

(** X19. The models are asked for once: in every run exactly one
    request is the listing [GET API_BASE/models], the first effect of
    the run, made on mounting; a failed listing is not retried and
    changes nothing but the console. *)
Theorem models_are_fetched_once (env : option js_string) (evs : list event) :
  List.filter (is_models_request (API_BASE env)) (run env evs).2
  = [fetchModels env] /\
  head (run env evs).2 = Some (fetchModels env) /\
  (forall message st,
     (step env (ModelsSettled (Rejected message)) st).1 = st /\
     Forall (fun e => is_fetch e = false)
       (step env (ModelsSettled (Rejected message)) st).2).
Proof.
  split; [|split].
  - unfold run. rewrite run_from_models_requests. unfold fetchModels. simpl.
    by rewrite bool_decide_eq_true_2.
  - unfold run. generalize initial_state.
    assert (H : forall evs st out e,
               head out = Some e -> head (run_from env evs st out).2 = Some e).
    { clear evs. induction evs as [|ev evs IH]; intros st out e He; simpl; [done|].
      destruct (step env ev st) as [st' effs]. apply IH.
      by destruct out. }
    intros st. by apply H.
  - intros message st. simpl. by repeat constructor.
Qed.

(** ** The models grid *)

Lemma models_grid_none_selected (sel : js_string)
    (l : list (js_string * model_info)) :
  sel ∉ l.*1 ->
  List.filter card_selected
    ((fun entry : js_string * model_info =>
        ModelCard entry.2 entry.1 (bool_decide (sel = entry.1))) <$> l) = [].
Proof.
  induction l as [|[k m] l IH]; intros Hnot; simpl; [done|].
  rewrite fmap_cons in Hnot. simpl in Hnot.
  apply not_elem_of_cons in Hnot as [Hne Hnot].
  rewrite bool_decide_eq_false_2 by done. by apply IH.
Qed.

(** X20. The grid has one card per entry of the models mapping; a card
    is marked selected exactly when its key is the selected model, so
    that after a click on a card that card's key is the only one
    marked; no card is marked when the selected model is not a key of
    the mapping (as before the models arrive), and at most one when the
    keys are distinct. *)
Theorem models_grid_selection (st : state) :
  length (models_grid st) = length (models st) /\
  (forall c, c ∈ models_grid st ->
     (card_selected c = true <-> card_key c = selectedModel st)) /\
  (forall env modelKey c,
     c ∈ models_grid (step env (ModelSelected modelKey) st).1 ->
     (card_selected c = true <-> card_key c = modelKey)) /\
  (selectedModel st ∉ (models st).*1 ->
   List.filter card_selected (models_grid st) = []) /\
  (NoDup (models st).*1 ->
   (length (List.filter card_selected (models_grid st)) <= 1)%nat).
Proof.
  assert (Hsel : forall sel (l : list (js_string * model_info)) c,
            c ∈ (fun entry : js_string * model_info =>
                   ModelCard entry.2 entry.1 (bool_decide (sel = entry.1))) <$> l ->
            (card_selected c = true <-> card_key c = sel)).
  { intros sel l c (entry & -> & _)%list_elem_of_fmap. simpl.
    rewrite bool_decide_eq_true. split; congruence. }
  unfold models_grid. split; [apply length_fmap|]. split; [apply Hsel|].
  split; [intros env modelKey c; apply Hsel|].
  split; [apply models_grid_none_selected|].
  generalize (selectedModel st) as sel.
  induction (models st) as [|[k m] l IH]; intros sel Hnd; simpl; [lia|].
  rewrite fmap_cons in Hnd. apply NoDup_cons in Hnd as [Hk Hnd]. simpl in Hk.
  destruct (decide (sel = k)) as [->|Hne].
  - rewrite bool_decide_eq_true_2 by done. simpl.
    rewrite models_grid_none_selected by done. simpl. lia.
  - rewrite bool_decide_eq_false_2 by done. by apply IH.
Qed.

(** X21. The badge of a model card always reads the cost tier. Its
    background is one of the three colours exactly for the tiers 'low',
    'medium' and 'high'; for the name of a member of Object.prototype
    ('constructor', 'toString', ...) the lookup gives that inherited
    member, not a colour; for every other tier it is undefined. *)
Theorem ModelCard_badge (model : model_info) (modelKey : js_string)
    (selected : bool) :
  badge_text (ModelCard model modelKey selected) = cost_tier model /\
  ((exists c, badge_color (ModelCard model modelKey selected) = Some (Val c)) <->
   cost_tier model ∈ (lit <$> ["low"; "medium"; "high"])) /\
  (cost_tier model ∈ Object_prototype_keys ->
   badge_color (ModelCard model modelKey selected)
   = Some (Inherited (cost_tier model))) /\
  (badge_color (ModelCard model modelKey selected) = None <->
   (cost_tier model ∉ (lit <$> ["low"; "medium"; "high"])) /\
   (cost_tier model ∉ Object_prototype_keys)).
Proof.
  split; [done|]. simpl.
  split; [apply (property_get_Val costColors)|].
  split; [|apply (property_get_None costColors)].
  intros Hk. unfold Object_prototype_keys in Hk. simpl in Hk.
  repeat (apply elem_of_cons in Hk as [->|Hk]);
    [..| by apply elem_of_nil in Hk]; reflexivity.
Qed.

(** ** What a run posts *)

Lemma startResearch_body_valid env st m u body :
  Fetch m u (Some body) ∈ (startResearch env st).2 ->
  website_url body <> [] /\
  req_questions body <> [] /\
  Forall (fun q => blank q = false /\ q ∈ questions st) (req_questions body).
Proof.
  unfold startResearch.
  destruct (websiteUrl st) as [|c url] eqn:Hu; simpl; [by inversion 1|].
  destruct (validQuestions (questions st)) as [|q qs] eqn:Hv; simpl;
    [by inversion 1|].
  intros [= -> -> ->]%list_elem_of_singleton. simpl.
  split; [done|]. split; [done|].
  rewrite <- Hv. apply Forall_forall. intros q' Hq'.
  apply validQuestions_elem in Hq'. tauto.
Qed.

(** X22. In every run, every request that carries a body is a POST
    whose URL field is not empty and whose questions are a non-empty
    list of strings none of which is blank. *)
Theorem posted_requests_are_well_formed (env : option js_string)
    (evs : list event) (m : http_method) (u : js_string)
    (body : research_request) :
  Fetch m u (Some body) ∈ (run env evs).2 ->
  m = POST /\
  website_url body <> [] /\
  req_questions body <> [] /\
  Forall (fun q => blank q = false) (req_questions body).
Proof.
  intros Hin.
  destruct (run_invariant env (fun _ => True)
              (fun e => forall m u body,
                   e = Fetch m u (Some body) ->
                   m = POST /\ website_url body <> [] /\
                   req_questions body <> [] /\
                   Forall (fun q => blank q = false) (req_questions body)))
    with (evs := evs) as [_ HP].
  - intros ev st _. split; [done|]. apply Forall_forall.
    intros e He m' u' body' ->.
    destruct ev; simpl in He;
      try (revert He; no_such_effect).
    + destruct r; simpl in He; revert He; no_such_effect.
    + revert He. case_match; simpl; no_such_effect.
    + pose proof (startResearch_request _ _ _ He) as (b & [= -> -> ->] & _).
      apply startResearch_body_valid in He as (? & ? & HF).
      split; [done|]. split; [done|]. split; [done|].
      eapply Forall_impl; [exact HF|]. by intros q [? _].
    + revert He. unfold startResearch_settled, startResearch_catch, pollJobStatus.
      repeat case_match; simpl; no_such_effect.
    + destruct (pollJobStatus_settled_effects jobId r st) as [Hn|[Hn _]];
        rewrite Hn in He; revert He; no_such_effect.
  - done.
  - unfold fetchModels. intros ? ? ? [=].
  - rewrite Forall_forall in HP. by eapply HP.
Qed.

Lemma posted_requests_are_well_formed_witness :
  let body := {| website_url := lit "https://example.com";
                 req_questions := [lit "What is sold?"];
                 model := lit "claude-sonnet-4-20250514";
                 max_pages := 30; max_depth := 2 |} in
  Fetch POST (lit "http://localhost:8001/research") (Some body)
    ∈ (run None [UrlChanged (lit "https://example.com");
                 QuestionChanged 0 (lit "What is sold?");
                 QuestionAdded; StartClicked]).2 /\
  req_questions body <> [].
Proof.
  intros body.
  assert (Hin : Fetch POST (lit "http://localhost:8001/research") (Some body)
                  ∈ (run None [UrlChanged (lit "https://example.com");
                               QuestionChanged 0 (lit "What is sold?");
                               QuestionAdded; StartClicked]).2).
  { vm_compute. apply elem_of_cons. right. apply elem_of_cons. by left. }
  split; [exact Hin|].
  apply (posted_requests_are_well_formed None _ _ _ _ Hin).
Defined.
